(** * Readwise MCP server: request dispatch and transport adaptation

    A shallow embedding of the dispatcher of [ReadwiseMCPServer]
    (validateMCPRequest, handleMCPRequest, handleToolCall,
    handlePromptCall), of the stdio adapter (setupStdioTransport), of the
    POST /messages route (setupSSERoutes) and of the token gate
    (createAuthMiddleware), together with the properties the
    specification states about them. *)

From Stdlib Require Import ZArith QArith Qcanon Lia Bool Ascii String List DecimalString.
From stdpp Require Import base option list strings gmap.

Local Open Scope string_scope.
Local Open Scope Z_scope.

(** ** JavaScript values

    The values the dispatcher handles are those JSON carries, plus
    [undefined].  A string is a sequence of code units, here the code
    units below 256 (one [ascii] each).  A number is an integer that a
    double represents exactly; fractions, NaN, infinities and the
    negative zero are outside the model.  An object is the list of its
    own enumerable properties in property order; a well-formed object has
    no key twice, and a lookup reads the first binding. *)

#[local] Unset Elimination Schemes.

Inductive value : Type :=
| VUndefined
| VNull
| VBool (b : bool)
| VNumber (n : Z)
| VString (s : string)
| VArray (items : list value)
| VObject (props : list (string * value)).

#[local] Set Elimination Schemes.

Module JS.

(** ToBoolean. *)
Definition truthy (v : value) : bool :=
  match v with
  | VUndefined | VNull => false
  | VBool b => b
  | VNumber n => negb (n =? 0)
  | VString s => negb (String.eqb s "")
  | VArray _ | VObject _ => true
  end.

(** The [typeof] operator. *)
Definition typeof (v : value) : string :=
  match v with
  | VUndefined => "undefined"
  | VNull => "object"
  | VBool _ => "boolean"
  | VNumber _ => "number"
  | VString _ => "string"
  | VArray _ | VObject _ => "object"
  end.

Fixpoint assoc (k : string) (props : list (string * value)) : option value :=
  match props with
  | [] => None
  | (k', v) :: rest => if String.eqb k k' then Some v else assoc k rest
  end.

(** [k in v] for a value [v] whose [typeof] is "object" and that is not
    null (every use in the program is guarded so).  The program asks
    for the fixed keys type, name, request_id, parameters, details,
    code, message and content only; none of them is a member of
    Object.prototype or Array.prototype, so an array answers no. *)
Definition has_property (k : string) (v : value) : bool :=
  match v with
  | VObject props => bool_decide (is_Some (assoc k props))
  | _ => false
  end.

(** [v.k] for a value [v] that is neither null nor undefined, and
    [v?.k] for every value: a missing property reads as undefined, and
    so do the fixed keys above on a primitive or an array. *)
Definition get (k : string) (v : value) : value :=
  match v with
  | VObject props => default VUndefined (assoc k props)
  | _ => VUndefined
  end.

(** Assignment of an own property: an existing key keeps its place. *)
Fixpoint set (k : string) (x : value) (props : list (string * value))
  : list (string * value) :=
  match props with
  | [] => [(k, x)]
  | (k', v) :: rest =>
      if String.eqb k k' then (k', x) :: rest else (k', v) :: set k x rest
  end.

(** White space and line terminators among the code units below 256:
    TAB, LF, VT, FF, CR, SP and NBSP. *)
Definition is_whitespace (c : ascii) : bool :=
  let n := Z.of_N (N_of_ascii c) in
  ((9 <=? n) && (n <=? 13)) || (n =? 32) || (n =? 160).

Fixpoint trimStart (s : string) : string :=
  match s with
  | String c rest => if is_whitespace c then trimStart rest else s
  | EmptyString => EmptyString
  end.

Fixpoint trimEnd (s : string) : string :=
  match s with
  | EmptyString => EmptyString
  | String c rest =>
      match trimEnd rest with
      | EmptyString => if is_whitespace c then EmptyString else String c EmptyString
      | rest' => String c rest'
      end
  end.

(** String.prototype.trim. *)
Definition trim (s : string) : string := trimEnd (trimStart s).

(** String.prototype.startsWith. *)
Fixpoint startsWith (p s : string) : bool :=
  match p, s with
  | EmptyString, _ => true
  | String a p', String b s' => Ascii.eqb a b && startsWith p' s'
  | String _ _, EmptyString => false
  end.

(** String.prototype.slice with a start index only. *)
Fixpoint slice (n : nat) (s : string) : string :=
  match n, s with
  | O, _ => s
  | S n', String _ s' => slice n' s'
  | S _, EmptyString => EmptyString
  end.

Fixpoint join (sep : string) (parts : list string) : string :=
  match parts with
  | [] => ""
  | [p] => p
  | p :: rest => p +:+ sep +:+ join sep rest
  end.

(** Number::toString for an integer below 10^21 in magnitude. *)
Definition Number_toString (n : Z) : string :=
  NilZero.string_of_int (Z.to_int n).

(** String(v), that is ToString, where the conversion returns.  On an
    object with an own property toString it raises instead; see
    [Run.ToString_raises] and [Run.ToString]. *)
Fixpoint ToString (v : value) : string :=
  match v with
  | VUndefined => "undefined"
  | VNull => "null"
  | VBool true => "true"
  | VBool false => "false"
  | VNumber n => Number_toString n
  | VString s => s
  | VArray items =>
      join "," (map (fun x => match x with
                              | VUndefined | VNull => ""
                              | _ => ToString x
                              end) items)
  | VObject _ => "[object Object]"
  end.

Definition dquote : string := String (ascii_of_N 34) EmptyString.

Definition hex_digit (n : Z) : ascii :=
  ascii_of_N (Z.to_N (if n <? 10 then 48 + n else 87 + n)).

(** QuoteJSONString, one code unit. *)
Definition quote_char (c : ascii) : string :=
  let n := Z.of_N (N_of_ascii c) in
  if n =? 34 then "\" +:+ dquote else
  if n =? 92 then "\\" else
  if n =? 8 then "\b" else
  if n =? 12 then "\f" else
  if n =? 10 then "\n" else
  if n =? 13 then "\r" else
  if n =? 9 then "\t" else
  if n <? 32 then "\u00" +:+ String (hex_digit (n / 16)) (String (hex_digit (n mod 16)) "")
  else String c "".

Fixpoint quote_body (s : string) : string :=
  match s with
  | EmptyString => ""
  | String c rest => quote_char c +:+ quote_body rest
  end.

Definition quote (s : string) : string := dquote +:+ quote_body s +:+ dquote.

(** JSON.stringify with one argument: undefined has no JSON text, an
    undefined array item is written null and an undefined property is
    left out. *)
Fixpoint JSON_stringify (v : value) : option string :=
  match v with
  | VUndefined => None
  | VNull => Some "null"
  | VBool true => Some "true"
  | VBool false => Some "false"
  | VNumber n => Some (Number_toString n)
  | VString s => Some (quote s)
  | VArray items =>
      Some ("[" +:+ join "," (map (fun x => default "null" (JSON_stringify x)) items) +:+ "]")
  | VObject props =>
      Some ("{" +:+
            join "," (omap (fun kv : string * value =>
                              let (k, x) := kv in
                              match JSON_stringify x with
                              | Some text => Some (quote k +:+ ":" +:+ text)
                              | None => None
                              end) props)
            +:+ "}")
  end.

(** [v === s] for a string literal [s]. *)
Definition is_string (s : string) (v : value) : bool :=
  match v with
  | VString s' => String.eqb s' s
  | _ => false
  end.

(** The own enumerable properties an object spread copies.  The
    dispatcher spreads a value only after it read a truthy [content]
    from it, which makes it an object. *)
Definition spread (v : value) : list (string * value) :=
  match v with
  | VObject props => props
  | _ => []
  end.

End JS.

(** ** Envelopes, operations and the server *)

(** Modelled from the spec: ErrorType of types/index.ts, which is not
    among the sources.  An error envelope carries one of three kinds,
    "transport", "validation" or "execution". *)
Inductive ErrorType : Type := transport | validation | execution.

(** A message text.  The text of the SyntaxError that the engine's
    JSON.parse raises on an input is the engine's own; it is kept as a
    symbol. *)
Inductive text : Type :=
| Text (s : string)
| SyntaxErrorText (input : string).

Record ErrorDetails : Type := {
  code : string;
  message : text;
  errors : option (list string)
}.

(** What the response callback receives: a success envelope, the object
    [{ ...response, request_id }] given by its properties, or an
    ErrorResponse [{ error: { type, details }, request_id }]. *)
Inductive Response : Type :=
| MCPResponse (fields : list (string * value))
| ErrorResponse (type : ErrorType) (details : ErrorDetails) (request_id : value).

(** Modelled from the spec: ValidationResult and ValidationError of
    types/validation.ts, which is not among the sources.  A validator
    answers [{valid, errors}] with errors [{field, message}]. *)
Module Validation.
Record ValidationError : Type := { field : string; message : string }.
Record ValidationResult : Type := { valid : bool; errors : list ValidationError }.
End Validation.

(** A value a promise is rejected with: an instance of Error, given by
    its message and its other own properties, or any other value. *)
Inductive thrown : Type :=
| ErrorInstance (message : text) (props : list (string * value))
| Thrown (v : value).

(** The promise an operation's execute returns, once settled. *)
Inductive settled : Type :=
| Resolved (result : value)
| Rejected (error : thrown).

(** Modelled from the spec: BaseMCPTool and BaseMCPPrompt of
    mcp/registry, which are not among the sources.  An operation has an
    asynchronous execute function from parameters to a result and an
    optional validate function from parameters to a verdict; the
    dispatcher also calls a tool's executeAsMCP when the tool has one. *)
Record BaseMCPTool : Type := {
  tool_validate : option (value -> Validation.ValidationResult);
  tool_executeAsMCP : option (value -> settled);
  tool_execute : value -> settled
}.

Record BaseMCPPrompt : Type := {
  prompt_validate : option (value -> Validation.ValidationResult);
  prompt_execute : value -> settled
}.

(** Modelled from the spec: ToolRegistry and PromptRegistry of
    mcp/registry, which are not among the sources.  A registry maps a
    name to at most one operation, and [get(name)] answers the operation
    registered under the name or nothing.  The server holds one registry
    of tools and one of prompts. *)
Record ReadwiseMCPServer : Type := {
  toolRegistry : gmap string BaseMCPTool;
  promptRegistry : gmap string BaseMCPPrompt
}.

Definition registry_get {A : Type} (registry : gmap string A) (name : value) : option A :=
  match name with
  | VString s => registry !! s
  | _ => None
  end.

(** What a request makes the dispatcher do, in order: calls of an
    operation's execute and calls of the response callback. *)
Inductive event : Type :=
| ToolExecuted (name : value) (parameters : value)
| PromptExecuted (name : value) (parameters : value)
| Callback (response : Response).

Record RequestValidation : Type := { valid : bool; error : option string }.

Definition invalid (why : string) : RequestValidation :=
  {| valid := false; error := Some why |}.

(** ** The dispatcher

    The dispatcher on the runs in which nothing is raised: the
    conversions to a string return, the validate and execute functions
    of the operations return, and so does the response callback.  The
    module [Run] below follows the same code with its exceptions. *)

Definition validateMCPRequest (request : value) : RequestValidation :=
  if negb (JS.truthy request) || negb (String.eqb (JS.typeof request) "object") then
    invalid "Request must be a JSON object"
  else if negb (JS.has_property "type" request) then
    invalid "Missing required field: type"
  else if negb (JS.has_property "name" request) then
    invalid "Missing required field: name"
  else if negb (JS.has_property "request_id" request) then
    invalid "Missing required field: request_id"
  else if negb (JS.is_string "tool_call" (JS.get "type" request))
          && negb (JS.is_string "prompt_call" (JS.get "type" request)) then
    invalid ("Invalid request type: " +:+ JS.ToString (JS.get "type" request)
             +:+ ". Must be 'tool_call' or 'prompt_call'")
  else if negb (String.eqb (JS.typeof (JS.get "name" request)) "string")
          || String.eqb (JS.trim (JS.ToString (JS.get "name" request))) "" then
    invalid "Invalid request name: must be a non-empty string"
  else if negb (String.eqb (JS.typeof (JS.get "request_id" request)) "string")
          || String.eqb (JS.trim (JS.ToString (JS.get "request_id" request))) "" then
    invalid "Invalid request_id: must be a non-empty string"
  else if negb (JS.has_property "parameters" request)
          || negb (String.eqb (JS.typeof (JS.get "parameters" request)) "object") then
    invalid "Missing or invalid parameters: must be an object"
  else {| valid := true; error := None |}.

Definition error_response (type : ErrorType) (code : string) (message : text)
    (errors : option (list string)) (request_id : value) : Response :=
  ErrorResponse type {| code := code; message := message; errors := errors |} request_id.

(** The two arms of [tool.validate ? tool.validate(parameters) : ...]. *)
Definition validation_result (validate : option (value -> Validation.ValidationResult))
    (parameters : value) : Validation.ValidationResult :=
  match validate with
  | Some f => f parameters
  | None => {| Validation.valid := true; Validation.errors := [] |}
  end.

Definition format_error (e : Validation.ValidationError) : string :=
  Validation.field e +:+ ": " +:+ Validation.message e.

Definition as_value (error : thrown) : value :=
  match error with
  | ErrorInstance _ props => VObject props
  | Thrown v => v
  end.

(** [error && typeof error === 'object' && k in error]. *)
Definition object_with (k : string) (v : value) : bool :=
  JS.truthy v && String.eqb (JS.typeof v) "object" && JS.has_property k v.

(** The TypeError of reading [content] from undefined or null (the text
    is that of Node 20, the engine of the Dockerfile). *)
Definition read_content_TypeError (result : value) : thrown :=
  ErrorInstance
    (Text ("Cannot read properties of " +:+ JS.ToString result +:+ " (reading 'content')")) [].

(** The fulfilment handler shared by both paths.  It answers the
    callback's argument, or the exception it raises before it reaches
    the callback. *)
Definition on_fulfilled (request : value) (result : value) : Response + thrown :=
  match result with
  | VUndefined | VNull => inr (read_content_TypeError result)
  | _ =>
      let response :=
        if JS.truthy (JS.get "content" result) then JS.spread result
        else [("content",
               VArray [VObject [("type", VString "text");
                                ("text", match JS.JSON_stringify result with
                                         | Some s => VString s
                                         | None => VUndefined
                                         end)]])] in
      inl (MCPResponse (JS.set "request_id" (JS.get "request_id" request) response))
  end.

(** The rejection handler of handleToolCall. *)
Definition tool_on_rejected (request : value) (error : thrown) : Response :=
  let isAuthError :=
    object_with "type" (as_value error)
    && JS.is_string "authentication" (JS.get "type" (as_value error)) in
  let errorDetails :=
    if object_with "details" (as_value error) then JS.get "details" (as_value error)
    else VNull in
  error_response
    (if isAuthError then validation else execution)
    (if object_with "code" errorDetails then JS.ToString (JS.get "code" errorDetails)
     else "tool_error")
    (if object_with "message" errorDetails then Text (JS.ToString (JS.get "message" errorDetails))
     else match error with
          | ErrorInstance m _ => m
          | Thrown _ => Text "Unknown error"
          end)
    None
    (JS.get "request_id" request).

(** The rejection handler of handlePromptCall. *)
Definition prompt_on_rejected (request : value) (error : thrown) : Response :=
  error_response execution "prompt_error"
    (match error with
     | ErrorInstance m _ => m
     | Thrown _ => Text "Unknown error"
     end)
    None
    (JS.get "request_id" request).

(** [promise.then(onFulfilled).catch(onRejected)]: an exception of the
    fulfilment handler reaches the rejection handler too. *)
Definition then_catch (promise : settled) (onFulfilled : value -> Response + thrown)
    (onRejected : thrown -> Response) : list event :=
  match promise with
  | Resolved result =>
      match onFulfilled result with
      | inl response => [Callback response]
      | inr error => [Callback (onRejected error)]
      end
  | Rejected error => [Callback (onRejected error)]
  end.

Definition invalid_parameters (request : value) (result : Validation.ValidationResult)
    : Response :=
  error_response validation "invalid_parameters" (Text "Invalid parameters")
    (Some (map format_error (Validation.errors result)))
    (JS.get "request_id" request).

(** [typeof tool.executeAsMCP === 'function' ? tool.executeAsMCP(parameters)
    : tool.execute(parameters)]. *)
Definition execute_tool (tool : BaseMCPTool) (parameters : value) : settled :=
  match tool_executeAsMCP tool with
  | Some executeAsMCP => executeAsMCP parameters
  | None => tool_execute tool parameters
  end.

Definition handleToolCall (server : ReadwiseMCPServer) (request : value) : list event :=
  let name := JS.get "name" request in
  let parameters := JS.get "parameters" request in
  let request_id := JS.get "request_id" request in
  match registry_get (toolRegistry server) name with
  | None =>
      [Callback (error_response transport "tool_not_found"
                   (Text ("Tool not found: " +:+ JS.ToString name)) None request_id)]
  | Some tool =>
      let validationResult := validation_result (tool_validate tool) parameters in
      if negb (Validation.valid validationResult) then
        [Callback (invalid_parameters request validationResult)]
      else
        ToolExecuted name parameters ::
        then_catch (execute_tool tool parameters)
          (on_fulfilled request)
          (tool_on_rejected request)
  end.

Definition handlePromptCall (server : ReadwiseMCPServer) (request : value) : list event :=
  let name := JS.get "name" request in
  let parameters := JS.get "parameters" request in
  let request_id := JS.get "request_id" request in
  match registry_get (promptRegistry server) name with
  | None =>
      [Callback (error_response transport "prompt_not_found"
                   (Text ("Prompt not found: " +:+ JS.ToString name)) None request_id)]
  | Some prompt =>
      let validationResult := validation_result (prompt_validate prompt) parameters in
      if negb (Validation.valid validationResult) then
        [Callback (invalid_parameters request validationResult)]
      else
        PromptExecuted name parameters ::
        then_catch (prompt_execute prompt parameters)
          (on_fulfilled request)
          (prompt_on_rejected request)
  end.

Definition handleMCPRequest (server : ReadwiseMCPServer) (request : value) : list event :=
  let validation_ := validateMCPRequest request in
  if negb (valid validation_) then
    [Callback (error_response transport "invalid_request"
                 (Text (match error validation_ with
                        | Some why => if String.eqb why "" then "Invalid request format" else why
                        | None => "Invalid request format"
                        end))
                 None
                 (if JS.truthy (JS.get "request_id" request)
                  then JS.get "request_id" request
                  else VString "unknown"))]
  else
    let requestType := JS.get "type" request in
    let requestId := JS.get "request_id" request in
    if JS.is_string "tool_call" requestType then handleToolCall server request
    else if JS.is_string "prompt_call" requestType then handlePromptCall server request
    else
      [Callback (error_response transport "invalid_request_type"
                   (Text ("Unknown request type: " +:+ JS.ToString requestType))
                   None requestId)].

(** The responses a trace hands to the callback, in order. *)
Fixpoint callbacks (trace : list event) : list Response :=
  match trace with
  | [] => []
  | Callback response :: rest => response :: callbacks rest
  | _ :: rest => callbacks rest
  end.

(** The calls of an operation's execute in a trace. *)
Fixpoint executions (trace : list event) : nat :=
  match trace with
  | [] => 0%nat
  | Callback _ :: rest => executions rest
  | _ :: rest => S (executions rest)
  end.

Definition empty_server : ReadwiseMCPServer :=
  {| toolRegistry := ∅; promptRegistry := ∅ |}.

(** The envelope of a request, as JSON.parse builds it from
    [{"type":..., "name":..., "request_id":..., "parameters":...}]. *)
Definition envelope (type name request_id : string) (parameters : value) : value :=
  VObject [("type", VString type); ("name", VString name);
           ("request_id", VString request_id); ("parameters", parameters)].

(** ** JSON.parse

    The JSON grammar over the value model.  A text whose value the model
    does not hold (a number with a fraction or an exponent, an integer
    beyond 2^53, an escape of a code unit above 255) is [Unsupported]:
    the model says nothing about it. *)

Inductive outcome (A : Type) : Type :=
| Ok (a : A)
| SyntaxError
| Unsupported
| OutOfFuel.

Arguments Ok {A} a.
Arguments SyntaxError {A}.
Arguments Unsupported {A}.
Arguments OutOfFuel {A}.

Definition bind {A B : Type} (r : outcome A) (k : A -> outcome B) : outcome B :=
  match r with
  | Ok a => k a
  | SyntaxError => SyntaxError
  | Unsupported => Unsupported
  | OutOfFuel => OutOfFuel
  end.

Module JSON.

Definition code (c : ascii) : Z := Z.of_N (N_of_ascii c).

Definition is_ws (c : ascii) : bool :=
  (code c =? 32) || (code c =? 9) || (code c =? 10) || (code c =? 13).

Fixpoint skip_ws (s : string) : string :=
  match s with
  | String c rest => if is_ws c then skip_ws rest else s
  | EmptyString => EmptyString
  end.

Definition is_digit (c : ascii) : bool := (48 <=? code c) && (code c <=? 57).

Definition hex_value (c : ascii) : option Z :=
  let n := code c in
  if (48 <=? n) && (n <=? 57) then Some (n - 48)
  else if (65 <=? n) && (n <=? 70) then Some (n - 55)
  else if (97 <=? n) && (n <=? 102) then Some (n - 87)
  else None.

(** The code unit of a two-character escape. *)
Definition escape (c : ascii) : option ascii :=
  let n := code c in
  if (n =? 34) || (n =? 92) || (n =? 47) then Some c
  else if n =? 98 then Some (ascii_of_N 8)
  else if n =? 102 then Some (ascii_of_N 12)
  else if n =? 110 then Some (ascii_of_N 10)
  else if n =? 114 then Some (ascii_of_N 13)
  else if n =? 116 then Some (ascii_of_N 9)
  else None.

(** The code unit of a \u escape, from its four digits. *)
Definition unit_of_hex (a b c d : ascii) : outcome ascii :=
  match hex_value a, hex_value b, hex_value c, hex_value d with
  | Some x, Some y, Some z, Some w =>
      let n := ((x * 16 + y) * 16 + z) * 16 + w in
      if n <? 256 then Ok (ascii_of_N (Z.to_N n)) else Unsupported
  | _, _, _, _ => SyntaxError
  end.

Definition cons_char (c : ascii) (r : outcome (string * string)) : outcome (string * string) :=
  bind r (fun '(str, rest) => Ok (String c str, rest)).

(** The characters of a string after its opening quote, up to the
    closing one, and the text after it. *)
Fixpoint string_body (s : string) : outcome (string * string) :=
  match s with
  | EmptyString => SyntaxError
  | String c rest =>
      if code c =? 34 then Ok (EmptyString, rest)
      else if code c <? 32 then SyntaxError
      else if code c =? 92 then
        match rest with
        | EmptyString => SyntaxError
        | String e rest1 =>
            if code e =? 117 then
              match rest1 with
              | String h1 (String h2 (String h3 (String h4 rest2))) =>
                  match unit_of_hex h1 h2 h3 h4 with
                  | Ok u => cons_char u (string_body rest2)
                  | SyntaxError => SyntaxError
                  | Unsupported => Unsupported
                  | OutOfFuel => OutOfFuel
                  end
              | _ => SyntaxError
              end
            else
              match escape e with
              | Some u => cons_char u (string_body rest1)
              | None => SyntaxError
              end
        end
      else cons_char c (string_body rest)
  end.

Fixpoint digits (s : string) (acc : Z) : Z * string :=
  match s with
  | String c rest => if is_digit c then digits rest (acc * 10 + (code c - 48)) else (acc, s)
  | EmptyString => (acc, s)
  end.

(** An integer is in the model when a double holds it, and a literal
    when no fraction and no exponent follows it. *)
Definition in_model (n : Z) (rest : string) : outcome (Z * string) :=
  match rest with
  | String d _ =>
      if (code d =? 46) || (code d =? 101) || (code d =? 69) then Unsupported
      else if n <=? 2 ^ 53 then Ok (n, rest) else Unsupported
  | EmptyString => if n <=? 2 ^ 53 then Ok (n, rest) else Unsupported
  end.

(** An integer literal after its optional sign: 0, or a digit from 1
    to 9 and further digits. *)
Definition unsigned (s : string) : outcome (Z * string) :=
  match s with
  | String c rest =>
      if negb (is_digit c) then SyntaxError
      else if code c =? 48 then in_model 0 rest
      else in_model (fst (digits rest (code c - 48))) (snd (digits rest (code c - 48)))
  | EmptyString => SyntaxError
  end.

Definition number (s : string) : outcome (value * string) :=
  match s with
  | String c rest =>
      if code c =? 45 then bind (unsigned rest) (fun '(n, rest') => Ok (VNumber (- n), rest'))
      else bind (unsigned s) (fun '(n, rest') => Ok (VNumber n, rest'))
  | EmptyString => SyntaxError
  end.

Definition literal (word : string) (v : value) (s : string) : outcome (value * string) :=
  if JS.startsWith word s then Ok (v, JS.slice (String.length word) s) else SyntaxError.

(** A value that is neither an array nor an object, from its first
    character on. *)
Definition scalar (s : string) : outcome (value * string) :=
  match s with
  | EmptyString => SyntaxError
  | String c rest =>
      if code c =? 34 then bind (string_body rest) (fun '(str, rest') => Ok (VString str, rest'))
      else if code c =? 116 then literal "true" (VBool true) s
      else if code c =? 102 then literal "false" (VBool false) s
      else if code c =? 110 then literal "null" VNull s
      else number s
  end.

(** A value, the items of an array after its first bracket and the
    members of an object after its first brace.  Every call uses one
    unit of fuel; [parse] gives enough of it. *)
Fixpoint value_ (fuel : nat) (s : string) : outcome (value * string) :=
  match fuel with
  | O => OutOfFuel
  | S fuel' =>
      match skip_ws s with
      | EmptyString => SyntaxError
      | String c rest =>
          if code c =? 123 then
            match skip_ws rest with
            | String c' rest' =>
                if code c' =? 125 then Ok (VObject [], rest') else members fuel' rest []
            | EmptyString => SyntaxError
            end
          else if code c =? 91 then
            match skip_ws rest with
            | String c' rest' =>
                if code c' =? 93 then Ok (VArray [], rest') else elements fuel' rest []
            | EmptyString => SyntaxError
            end
          else scalar (String c rest)
      end
  end
with elements (fuel : nat) (s : string) (acc : list value) : outcome (value * string) :=
  match fuel with
  | O => OutOfFuel
  | S fuel' =>
      bind (value_ fuel' s) (fun '(v, rest) =>
        match skip_ws rest with
        | String c rest' =>
            if code c =? 44 then elements fuel' rest' (acc ++ [v])
            else if code c =? 93 then Ok (VArray (acc ++ [v]), rest')
            else SyntaxError
        | EmptyString => SyntaxError
        end)
  end
with members (fuel : nat) (s : string) (acc : list (string * value))
  : outcome (value * string) :=
  match fuel with
  | O => OutOfFuel
  | S fuel' =>
      match skip_ws s with
      | String q rest =>
          if negb (code q =? 34) then SyntaxError
          else
            bind (string_body rest) (fun '(key, rest1) =>
              match skip_ws rest1 with
              | String colon rest2 =>
                  if negb (code colon =? 58) then SyntaxError
                  else
                    bind (value_ fuel' rest2) (fun '(v, rest3) =>
                      match skip_ws rest3 with
                      | String c rest' =>
                          if code c =? 44 then members fuel' rest' (JS.set key v acc)
                          else if code c =? 125 then Ok (VObject (JS.set key v acc), rest')
                          else SyntaxError
                      | EmptyString => SyntaxError
                      end)
              | EmptyString => SyntaxError
              end)
      | EmptyString => SyntaxError
      end
  end.

(** JSON.parse with one argument. *)
Definition parse (s : string) : outcome value :=
  bind (value_ (2 * String.length s + 2) s) (fun '(v, rest) =>
    match skip_ws rest with
    | EmptyString => Ok v
    | String _ _ => SyntaxError
    end).

(** A JSON text written with apostrophes in place of double quotes. *)
Fixpoint text (s : string) : string :=
  match s with
  | EmptyString => EmptyString
  | String c rest => String (if code c =? 39 then ascii_of_N 34 else c) (text rest)
  end.

End JSON.

(** ** The stdio adapter (setupStdioTransport)

    What one [data] event of the input stream makes the handler do: hand
    a request to the dispatcher, and write lines to the output stream.
    A written [Response] stands for the line
    [JSON.stringify(response) + '\n']. *)

Inductive stdio_event : Type :=
| Dispatched (request : value)
| Written (line : Response).

Definition parse_error_response (input : string) : Response :=
  error_response transport "invalid_request" (SyntaxErrorText input) None (VString "unknown").

(** The handler of [process.stdin.on('data', ...)].  [None] when the
    chunk holds a JSON text outside the value model. *)
Definition on_stdin_data (server : ReadwiseMCPServer) (data : string)
    : option (list stdio_event) :=
  let input := JS.trim data in
  if String.eqb input "" then Some []
  else
    match JSON.parse input with
    | Ok request =>
        Some (Dispatched request :: map Written (callbacks (handleMCPRequest server request)))
    | SyntaxError => Some [Written (parse_error_response input)]
    | Unsupported | OutOfFuel => None
    end.



(** The handler has no state of its own: a sequence of [data] events is
    handled chunk by chunk. *)
Fixpoint on_stdin (server : ReadwiseMCPServer) (chunks : list string)
    : option (list stdio_event) :=
  match chunks with
  | [] => Some []
  | data :: later =>
      match on_stdin_data server data, on_stdin server later with
      | Some now, Some after => Some (now ++ after)%list
      | _, _ => None
      end
  end.

(** ** The SSE session store and POST /messages (setupSSERoutes) *)

(** An SSEServerTransport of the SDK: the response stream it is bound to
    and whether it has a handlePostMessage member, which the route tests
    before it calls it. *)
Record SSEServerTransport : Type := {
  stream : nat;
  has_handlePostMessage : bool
}.

(** [map.get(key)] on a Map whose keys are strings. *)
Definition Map_get {A : Type} (m : gmap string A) (key : value) : option A :=
  match key with
  | VString s => m !! s
  | _ => None
  end.

(** GET /sse stores the new transport under its session identifier; the
    close of the connection and the transport's onerror and onclose
    delete it. *)
Definition sse_open (sessionId : string) (t : SSEServerTransport)
    (sseTransports : gmap string SSEServerTransport) : gmap string SSEServerTransport :=
  <[sessionId := t]> sseTransports.

Definition sse_close (sessionId : string)
    (sseTransports : gmap string SSEServerTransport) : gmap string SSEServerTransport :=
  delete sessionId sseTransports.

(** What POST /messages does with a request: answer with a status and a
    JSON body, or call handlePostMessage of a transport with the body. *)
Inductive route_result : Type :=
| Reply (status : Z) (body : value)
| HandlePostMessage (session : SSEServerTransport) (body : value).

Definition error_body (type code message : string) : value :=
  VObject [("error",
            VObject [("type", VString type);
                     ("details", VObject [("code", VString code);
                                          ("message", VString message)])])].

(** The route, from [req.query.sessionId] and [req.body]. *)
Definition post_messages (sseTransports : gmap string SSEServerTransport)
    (sessionId : value) (body : value) : route_result :=
  if negb (JS.truthy sessionId) then
    Reply 400 (error_body "validation" "missing_session_id"
                 "Missing required query parameter: sessionId")
  else
    match Map_get sseTransports sessionId with
    | None =>
        Reply 404 (error_body "transport" "session_not_found"
                     ("No active SSE connection found for sessionId: "
                      +:+ JS.ToString sessionId))
    | Some session =>
        if has_handlePostMessage session then HandlePostMessage session body
        else
          Reply 200 (VObject [("jsonrpc", VString "2.0");
                              ("id", if JS.truthy (JS.get "id" body)
                                     then JS.get "id" body else VNull);
                              ("result", VObject [])])
    end.

(** ** The token gate (createAuthMiddleware) *)

Record Request : Type := {
  method : string;
  authorization : option string;
  query_token : value
}.

Inductive middleware_result : Type :=
| next
| respond (status : Z) (body : value).

(** Buffer.from(string): the UTF-8 bytes of the code units. *)
Fixpoint Buffer_from (s : string) : list Z :=
  match s with
  | EmptyString => []
  | String c rest =>
      let n := Z.of_N (N_of_ascii c) in
      if n <? 128 then n :: Buffer_from rest
      else Z.lor 192 (Z.shiftr n 6) :: Z.lor 128 (Z.land n 63) :: Buffer_from rest
  end.

(** crypto.timingSafeEqual on two buffers of one length. *)
Fixpoint timingSafeEqual (a b : list Z) : bool :=
  match a, b with
  | [], [] => true
  | x :: a', y :: b' => (x =? y) && timingSafeEqual a' b'
  | _, _ => false
  end.

(** The code unit that the first one or two bytes of a buffer encode. *)
Definition first_unit (bytes : list Z) : option Z :=
  match bytes with
  | [] => None
  | a :: rest =>
      if a <? 128 then Some a
      else
        match rest with
        | b :: _ => Some (Z.lor (Z.shiftl (Z.land a 31) 6) (Z.land b 63))
        | [] => None
        end
  end.

(** [headerToken || queryToken]. *)
Definition request_token (req : Request) : option string :=
  let headerToken :=
    match authorization req with
    | Some headerAuth =>
        if JS.startsWith "Bearer " headerAuth then Some (JS.slice 7 headerAuth) else None
    | None => None
    end in
  let queryToken :=
    match query_token req with
    | VString s => Some s
    | _ => None
    end in
  match headerToken with
  | Some t => if String.eqb t "" then queryToken else Some t
  | None => queryToken
  end.

Definition createAuthMiddleware (authToken : string) (req : Request) : middleware_result :=
  if String.eqb (method req) "OPTIONS" then next
  else
    match request_token req with
    | None =>
        respond 401 (VObject [("error", VString "Authentication required. Provide token via Authorization: Bearer <token> header or ?token=<token> query parameter.")])
    | Some token =>
        if String.eqb token "" then
          respond 401 (VObject [("error", VString "Authentication required. Provide token via Authorization: Bearer <token> header or ?token=<token> query parameter.")])
        else
          let tokenBuf := Buffer_from token in
          let authBuf := Buffer_from authToken in
          if negb (length tokenBuf =? length authBuf)%nat
             || negb (timingSafeEqual tokenBuf authBuf) then
            respond 403 (VObject [("error", VString "Invalid authentication token.")])
          else next
    end.

(** The constructor's [this.authToken = process.env.SERVER_AUTH_TOKEN ||
    null] and, when it is set, [app.use(['/sse', '/messages', '/mcp'],
    this.createAuthMiddleware())]: the paths the gate is mounted on and
    the gate. *)
Definition authToken (SERVER_AUTH_TOKEN : option string) : option string :=
  match SERVER_AUTH_TOKEN with
  | Some t => if String.eqb t "" then None else Some t
  | None => None
  end.

Definition auth_mount (SERVER_AUTH_TOKEN : option string)
    : option (list string * (Request -> middleware_result)) :=
  match authToken SERVER_AUTH_TOKEN with
  | Some t => Some (["/sse"; "/messages"; "/mcp"], createAuthMiddleware t)
  | None => None
  end.

(** ** Well-formed and malformed requests *)

(** What a request that passes validateMCPRequest looks like. *)
Record well_formed (request : value) : Prop := {
  wf_object : JS.truthy request = true /\ JS.typeof request = "object";
  wf_fields : forall k, In k ["type"; "name"; "request_id"; "parameters"] ->
                        JS.has_property k request = true;
  wf_type : JS.get "type" request = VString "tool_call"
            \/ JS.get "type" request = VString "prompt_call";
  wf_name : exists name, JS.get "name" request = VString name /\ JS.trim name <> "";
  wf_request_id : exists id, JS.get "request_id" request = VString id /\ JS.trim id <> "";
  wf_parameters : JS.typeof (JS.get "parameters" request) = "object"
}.

(** The ways a raw request fails to be an envelope. *)
Inductive malformed (request : value) : Prop :=
| not_an_object :
    JS.truthy request = false \/ JS.typeof request <> "object" -> malformed request
| missing_field k :
    In k ["type"; "name"; "request_id"; "parameters"] ->
    JS.has_property k request = false -> malformed request
| unknown_type :
    JS.get "type" request <> VString "tool_call" ->
    JS.get "type" request <> VString "prompt_call" -> malformed request
| bad_name :
    (forall s, JS.get "name" request = VString s -> JS.trim s = "") -> malformed request
| bad_request_id :
    (forall s, JS.get "request_id" request = VString s -> JS.trim s = "") -> malformed request
| primitive_parameters :
    JS.typeof (JS.get "parameters" request) <> "object" -> malformed request.

(** ** A small server to run the dispatcher on

    Two tools and two prompts in the shape of the built-in ones: one of
    each with a validator that requires a [query] parameter, one of each
    without a validator.  The execute functions are fixed by the
    parameters: [fail] rejects with the value of that parameter,
    [throw] rejects with an Error of that message, anything else
    resolves with the value of [result]. *)

Definition require_query (parameters : value) : Validation.ValidationResult :=
  if JS.truthy (JS.get "query" parameters) then
    {| Validation.valid := true; Validation.errors := [] |}
  else
    {| Validation.valid := false;
       Validation.errors :=
         [{| Validation.field := "query"; Validation.message := "Search query is required" |}] |}.

Definition run (parameters : value) : settled :=
  if JS.has_property "fail" parameters then Rejected (Thrown (JS.get "fail" parameters))
  else if JS.has_property "throw" parameters then
    Rejected (ErrorInstance (Text (JS.ToString (JS.get "throw" parameters))) [])
  else Resolved (JS.get "result" parameters).

Definition search_highlights : BaseMCPTool :=
  {| tool_validate := Some require_query; tool_executeAsMCP := None; tool_execute := run |}.

Definition get_tags : BaseMCPTool :=
  {| tool_validate := None; tool_executeAsMCP := None; tool_execute := run |}.

Definition readwise_search : BaseMCPPrompt :=
  {| prompt_validate := Some require_query; prompt_execute := run |}.

Definition readwise_highlight : BaseMCPPrompt :=
  {| prompt_validate := None; prompt_execute := run |}.

Definition sample_server : ReadwiseMCPServer :=
  {| toolRegistry := {[ "search_highlights" := search_highlights; "get_tags" := get_tags ]};
     promptRegistry :=
       {[ "readwise_search" := readwise_search; "readwise_highlight" := readwise_highlight ]} |}.

(** ** The listening port (index.ts and the constructor)

    A port is a JavaScript number, that is a double: a rational (yargs
    turns --port 80.5 into the number 80.5), NaN, or one of the two
    infinities.  The rational is kept in lowest terms, so that equal
    numbers are equal terms. *)

Inductive number : Type :=
| Finite (q : Qc)
| NaN
| Infinity (negative : bool).

(** The number a numeric literal denotes. *)
Definition Number (q : Q) : number := Finite (Q2Qc q).

(** [!isNaN(p) && p >= 0 && p < 65536]. *)
Definition valid_port (p : number) : bool :=
  match p with
  | Finite q => Qle_bool 0 q && negb (Qle_bool 65536 q)
  | NaN => false
  | Infinity _ => false
  end.

(** parseInt(s, 10): leading white space is skipped, a sign is read, and
    the longest run of decimal digits is the value; NaN without a
    digit. *)
Definition parseInt (s : string) : number :=
  let unsigned (t : string) : number :=
    match t with
    | String d _ => if JSON.is_digit d then Number (inject_Z (fst (JSON.digits t 0))) else NaN
    | EmptyString => NaN
    end in
  match JS.trimStart s with
  | String c rest =>
      if JSON.code c =? 45 then
        match unsigned rest with
        | Finite q => Finite (- q)
        | p => p
        end
      else if JSON.code c =? 43 then unsigned rest
      else unsigned (String c rest)
  | EmptyString => NaN
  end.

(** The yargs middleware of main: [port] is argv.port, [None] when it
    is not of type number; [PORT] is process.env.PORT. *)
Definition port_middleware (port : option number) (PORT : option string) : number :=
  let port1 :=
    match port, PORT with
    | Some (Finite q), Some env =>
        if Qeq_bool q 8081 && negb (String.eqb env "") && valid_port (parseInt env)
        then Some (parseInt env)
        else port
    | _, _ => port
    end in
  match port1 with
  | Some p => if valid_port p then p else Number 8081
  | None => Number 8081
  end.

(** What the constructor reads of the process. *)
Record Process : Type := {
  MCP_INSPECTOR : option string;
  NODE_ENV : option string;
  argv : list string
}.

Definition isMCPInspector (process : Process) : bool :=
  bool_decide (MCP_INSPECTOR process = Some "true")
  || existsb (String.eqb "--mcp-inspector") (argv process)
  || bool_decide (NODE_ENV process = Some "mcp-inspector").

(** [this.port] and [this.transportType] as the constructor sets them:
    [port] is its second argument ([None] when it is not of type number,
    undefined included, which the default of 3000 replaces). *)
Definition constructor_port (process : Process) (port : option number) : number :=
  let resolvedPort := if isMCPInspector process then Some (Number 3000) else port in
  match resolvedPort with
  | Some p => if valid_port p then p else Number 3000
  | None => Number 3000
  end.

Definition constructor_transport (process : Process) (transport_arg : string) : string :=
  if isMCPInspector process then "sse" else transport_arg.

(** ** The tools/call handler of the SDK server (registerToolsWithSDK)

    The handler of CallToolRequestSchema, from [request.params.name] and
    [request.params.arguments]: the calls of execute it makes and the
    promise it returns. *)
Definition sdk_call_tool (server : ReadwiseMCPServer) (name args : value)
    : list event * settled :=
  match registry_get (toolRegistry server) name with
  | None => ([], Rejected (ErrorInstance (Text ("Tool not found: " +:+ JS.ToString name)) []))
  | Some tool =>
      let parameters := if JS.truthy args then args else VObject [] in
      ([ToolExecuted name parameters], tool_execute tool parameters)
  end.

(** The request_id an envelope carries. *)
Definition response_request_id (response : Response) : option value :=
  match response with
  | MCPResponse fields => JS.assoc "request_id" fields
  | ErrorResponse _ _ request_id => Some request_id
  end.

(** ** GET /sse (setupSSERoutes)

    The session identifier
    [`sse-${Date.now()}-${Math.random().toString(36).substr(2, 9)}`],
    from the clock and from the digits drawn. *)
Definition sse_session_id (now : Z) (random : string) : string :=
  "sse-" +:+ JS.Number_toString now +:+ "-" +:+ random.

(** The state the route leaves: the session store, and the sessions
    whose close, onerror and onclose handlers are set. *)
Record sse_state : Type := {
  sseTransports : gmap string SSEServerTransport;
  watched : gset string
}.

(** A connection request: the transport is stored first, then started
    and connected; the handlers that delete the session are set only
    once that has succeeded ([connected]). *)
Definition get_sse (now : Z) (random : string) (session : SSEServerTransport)
    (connected : bool) (state : sse_state) : sse_state :=
  let sessionId := sse_session_id now random in
  {| sseTransports := sse_open sessionId session (sseTransports state);
     watched := if connected then {[sessionId]} ∪ watched state else watched state |}.

(** The close of a connection, or the onerror or onclose of its
    transport. *)
Definition sse_disconnect (sessionId : string) (state : sse_state) : sse_state :=
  if bool_decide (sessionId ∈ watched state) then
    {| sseTransports := sse_close sessionId (sseTransports state); watched := watched state |}
  else state.

(** ** ALL /mcp (setupRoutes) *)

(** A StreamableHTTPServerTransport of the SDK: which instance it is and
    its [sessionId?: string] as it reads once the transport is
    connected. *)
Record StreamableHTTPServerTransport : Type := {
  instance : nat;
  sessionId : option string
}.

(** What answers a request to /mcp: an error envelope with a status, or
    the handleRequest of a transport (what that call does after is the
    transport's). *)
Inductive mcp_result : Type :=
| McpError (status : Z) (type : ErrorType) (details : ErrorDetails)
| HandleRequest (session : StreamableHTTPServerTransport).

Record mcp_outcome : Type := {
  streamableTransports : gmap string StreamableHTTPServerTransport;
  session_header : option string;
  result : mcp_result
}.

(** The route: [mcpServer] tells whether this.mcpServer is set, [header]
    is the mcp-session-id request header, [fresh] the transport that is
    made when none is reused and [connect] the error that connecting it
    raises, if any.  The outcome is the store, the mcp-session-id
    response header when it is set, and what answers the request. *)
Definition mcp_route (mcpServer : bool) (store : gmap string StreamableHTTPServerTransport)
    (header : option string) (fresh : StreamableHTTPServerTransport) (connect : option thrown)
    : mcp_outcome :=
  if negb mcpServer then
    {| streamableTransports := store; session_header := None;
       result := McpError 503 transport
                   {| code := "server_not_ready";
                      message := Text "MCP server is not initialized yet";
                      errors := None |} |}
  else
    let reused :=
      match header with
      | Some id => if String.eqb id "" then None else store !! id
      | None => None
      end in
    match reused with
    | Some existing =>
        {| streamableTransports := store; session_header := None;
           result := HandleRequest existing |}
    | None =>
        match connect with
        | Some error =>
            {| streamableTransports := store; session_header := None;
               result := McpError 500 transport
                           {| code := "server_error";
                              message := match error with
                                         | ErrorInstance m _ => m
                                         | Thrown _ => Text "Unknown error"
                                         end;
                              errors := None |} |}
        | None =>
            match sessionId fresh with
            | Some newSessionId =>
                if String.eqb newSessionId "" then
                  {| streamableTransports := store; session_header := None;
                     result := HandleRequest fresh |}
                else
                  {| streamableTransports := <[newSessionId := fresh]> store;
                     session_header := Some newSessionId;
                     result := HandleRequest fresh |}
            | None =>
                {| streamableTransports := store; session_header := None;
                   result := HandleRequest fresh |}
            end
        end
    end.

(** ** Tool annotations (smithery.ts) *)

Record Annotations : Type := {
  readOnlyHint : bool;
  destructiveHint : bool;
  idempotentHint : bool
}.

Definition deleteTools : list string :=
  ["delete_highlight"; "delete_document"; "bulk_delete_documents"].

Definition createTools : list string :=
  ["create_highlight"; "create_note"; "create_video_highlight";
   "save_document"; "bulk_save_documents"].

Definition updateTools : list string :=
  ["update_highlight"; "update_reading_progress"; "update_video_position";
   "update_document"; "bulk_update_documents"; "document_tags"; "bulk_tags"].

(** Array.prototype.includes on an array of strings. *)
Definition includes (l : list string) (s : string) : bool := existsb (String.eqb s) l.

Definition getToolAnnotations (toolName : string) : Annotations :=
  if includes deleteTools toolName then
    {| readOnlyHint := false; destructiveHint := true; idempotentHint := true |}
  else if includes createTools toolName then
    {| readOnlyHint := false; destructiveHint := false; idempotentHint := false |}
  else if includes updateTools toolName then
    {| readOnlyHint := false; destructiveHint := false; idempotentHint := true |}
  else {| readOnlyHint := true; destructiveHint := false; idempotentHint := true |}.

(** ** The setup wizard (index.ts) *)

(** How the check of a key against the API ends: it passes, it fails
    with an Error whose message includes '401', or it fails
    otherwise. *)
Inductive key_check : Type := KeyAccepted | Key401 | KeyUnchecked.

(** String.prototype.toLowerCase on the code units below 256: the
    letters A to Z and the capital letters from 192 to 222 (215, the
    multiplication sign, is none). *)
Definition toLowerCase_char (c : ascii) : ascii :=
  let n := Z.of_N (N_of_ascii c) in
  if ((65 <=? n) && (n <=? 90)) || ((192 <=? n) && (n <=? 222) && negb (n =? 215))
  then ascii_of_N (Z.to_N (n + 32)) else c.

Fixpoint toLowerCase (s : string) : string :=
  match s with
  | EmptyString => EmptyString
  | String c rest => String (toLowerCase_char c) (toLowerCase rest)
  end.

(** runSetupWizard on the answers its questions get, in order: the key
    it returns and the keys it hands to saveConfig.  [check n key] is the
    outcome of the API call for a key when [n] calls were made before
    it, and [calls] counts them.  [None] when the input ends before the
    wizard does: it waits for an answer that never comes. *)
Fixpoint runSetupWizard (check : nat -> string -> key_check) (calls : nat)
    (answers : list string) : option (string * list string) :=
  match answers with
  | [] => None
  | apiKey :: rest =>
      if String.eqb apiKey "" then runSetupWizard check calls rest
      else
        match check calls apiKey with
        | KeyAccepted => Some (apiKey, [apiKey])
        | Key401 => runSetupWizard check (S calls) rest
        | KeyUnchecked =>
            match rest with
            | [] => None
            | proceed :: rest' =>
                if negb (String.eqb (toLowerCase proceed) "y")
                then runSetupWizard check (S calls) rest'
                else Some (apiKey, [apiKey])
            end
        end
  end.

(** ** The dispatcher with its exceptions

    The dispatcher above is the code on the runs in which nothing is
    raised.  The definitions of [Run] follow the same code with the
    exceptions it can meet: a conversion to a string that raises, a
    validator or an execute function that raises instead of returning,
    and a response callback that raises. *)

(** How the evaluation of an expression ends. *)
Inductive completion (A : Type) : Type :=
| Returns (a : A)
| Raises (error : thrown).

Arguments Returns {A} a.
Arguments Raises {A} error.

Module Run.

(** The TypeError of OrdinaryToPrimitive (the text is that of Node 20). *)
Definition TypeError : thrown :=
  ErrorInstance (Text "Cannot convert object to primitive value") [].

(** Whether String(v), or [v] in a template literal, raises.  The
    conversion of an object calls its toString and then its valueOf,
    each when it is a function, and raises a TypeError when neither
    gives a primitive.  A value of the model holds no function: an
    object with an own property toString, whatever its value, hides
    Object.prototype.toString, the valueOf it has or inherits gives no
    primitive, and the conversion raises; without an own toString the
    inherited one answers.  An array joins the conversions of its
    elements, undefined and null apart. *)
Fixpoint ToString_raises (v : value) : bool :=
  match v with
  | VObject props => bool_decide (is_Some (JS.assoc "toString" props))
  | VArray items =>
      existsb (fun x => match x with
                        | VUndefined | VNull => false
                        | _ => ToString_raises x
                        end) items
  | _ => false
  end.

(** String(v), and [v] in a template literal. *)
Definition ToString (v : value) : completion string :=
  if ToString_raises v then Raises TypeError else Returns (JS.ToString v).

(** An operation whose validate and execute may raise.  *)
Record BaseMCPTool : Type := {
  tool_validate : option (value -> completion Validation.ValidationResult);
  tool_executeAsMCP : option (value -> completion settled);
  tool_execute : value -> completion settled
}.

Record BaseMCPPrompt : Type := {
  prompt_validate : option (value -> completion Validation.ValidationResult);
  prompt_execute : value -> completion settled
}.

Record ReadwiseMCPServer : Type := {
  toolRegistry : gmap string BaseMCPTool;
  promptRegistry : gmap string BaseMCPPrompt
}.

(** How a call of the dispatcher ends: it returns and every handler it
    left behind returns; or an exception leaves handleMCPRequest towards
    its caller; or an exception leaves a handler of the promise chain,
    where nothing is left to handle the rejection. *)
Inductive ending : Type :=
| Completed
| Threw (error : thrown)
| UnhandledRejection (error : thrown).

(** What a request makes the dispatcher do, in order, and how that
    ends. *)
Record result : Type := { trace : list event; end_ : ending }.

Definition raise (error : thrown) : result := {| trace := []; end_ := Threw error |}.

Definition after (e : event) (r : result) : result :=
  {| trace := e :: trace r; end_ := end_ r |}.

(** [callback(response)] as the last statement of a function or of a
    handler; [escapes] is where an exception of the callback goes. *)
Definition call (escapes : thrown -> ending) (callback : Response -> option thrown)
    (response : Response) : result :=
  {| trace := [Callback response];
     end_ := match callback response with
             | Some error => escapes error
             | None => Completed
             end |}.

Definition validateMCPRequest (request : value) : completion RequestValidation :=
  if negb (JS.truthy request) || negb (String.eqb (JS.typeof request) "object") then
    Returns (invalid "Request must be a JSON object")
  else if negb (JS.has_property "type" request) then
    Returns (invalid "Missing required field: type")
  else if negb (JS.has_property "name" request) then
    Returns (invalid "Missing required field: name")
  else if negb (JS.has_property "request_id" request) then
    Returns (invalid "Missing required field: request_id")
  else if negb (JS.is_string "tool_call" (JS.get "type" request))
          && negb (JS.is_string "prompt_call" (JS.get "type" request)) then
    match ToString (JS.get "type" request) with
    | Raises error => Raises error
    | Returns type =>
        Returns (invalid ("Invalid request type: " +:+ type
                          +:+ ". Must be 'tool_call' or 'prompt_call'"))
    end
  else if negb (String.eqb (JS.typeof (JS.get "name" request)) "string")
          || String.eqb (JS.trim (JS.ToString (JS.get "name" request))) "" then
    Returns (invalid "Invalid request name: must be a non-empty string")
  else if negb (String.eqb (JS.typeof (JS.get "request_id" request)) "string")
          || String.eqb (JS.trim (JS.ToString (JS.get "request_id" request))) "" then
    Returns (invalid "Invalid request_id: must be a non-empty string")
  else if negb (JS.has_property "parameters" request)
          || negb (String.eqb (JS.typeof (JS.get "parameters" request)) "object") then
    Returns (invalid "Missing or invalid parameters: must be an object")
  else Returns {| valid := true; error := None |}.

(** The two arms of [tool.validate ? tool.validate(parameters) : ...]. *)
Definition validation_result
    (validate : option (value -> completion Validation.ValidationResult))
    (parameters : value) : completion Validation.ValidationResult :=
  match validate with
  | Some f => f parameters
  | None => Returns {| Validation.valid := true; Validation.errors := [] |}
  end.

(** The rejection handler of handleToolCall, up to its call of the
    callback: String(errorDetails.code) and String(errorDetails.message)
    are evaluated in this order. *)
Definition tool_on_rejected (request : value) (error : thrown) : completion Response :=
  let isAuthError :=
    object_with "type" (as_value error)
    && JS.is_string "authentication" (JS.get "type" (as_value error)) in
  let errorDetails :=
    if object_with "details" (as_value error) then JS.get "details" (as_value error)
    else VNull in
  match (if object_with "code" errorDetails then ToString (JS.get "code" errorDetails)
         else Returns "tool_error") with
  | Raises e => Raises e
  | Returns code =>
      match (if object_with "message" errorDetails
             then match ToString (JS.get "message" errorDetails) with
                  | Raises e => Raises e
                  | Returns s => Returns (Text s)
                  end
             else Returns match error with
                          | ErrorInstance m _ => m
                          | Thrown _ => Text "Unknown error"
                          end) with
      | Raises e => Raises e
      | Returns message =>
          Returns (error_response (if isAuthError then validation else execution)
                     code message None (JS.get "request_id" request))
      end
  end.

(** [promise.then(onFulfilled).catch(onRejected)], each handler ending
    with a call of the callback.  An exception of the fulfilment handler,
    the one of its call of the callback included, reaches the rejection
    handler; an exception of the rejection handler reaches nothing. *)
Definition then_catch (callback : Response -> option thrown) (promise : settled)
    (onFulfilled : value -> Response + thrown)
    (onRejected : thrown -> completion Response) : result :=
  let rejected (error : thrown) : result :=
    match onRejected error with
    | Raises e => {| trace := []; end_ := UnhandledRejection e |}
    | Returns response => call UnhandledRejection callback response
    end in
  match promise with
  | Resolved value_ =>
      match onFulfilled value_ with
      | inl response =>
          match callback response with
          | None => {| trace := [Callback response]; end_ := Completed |}
          | Some error => after (Callback response) (rejected error)
          end
      | inr error => rejected error
      end
  | Rejected error => rejected error
  end.

(** [typeof tool.executeAsMCP === 'function' ? tool.executeAsMCP(parameters)
    : tool.execute(parameters)]. *)
Definition execute_tool (tool : BaseMCPTool) (parameters : value) : completion settled :=
  match tool_executeAsMCP tool with
  | Some executeAsMCP => executeAsMCP parameters
  | None => tool_execute tool parameters
  end.

Definition handleToolCall (server : ReadwiseMCPServer) (callback : Response -> option thrown)
    (request : value) : result :=
  let name := JS.get "name" request in
  let parameters := JS.get "parameters" request in
  let request_id := JS.get "request_id" request in
  match registry_get (toolRegistry server) name with
  | None =>
      match ToString name with
      | Raises e => raise e
      | Returns name_ =>
          call Threw callback
            (error_response transport "tool_not_found"
               (Text ("Tool not found: " +:+ name_)) None request_id)
      end
  | Some tool =>
      match validation_result (tool_validate tool) parameters with
      | Raises e => raise e
      | Returns validationResult =>
          if negb (Validation.valid validationResult) then
            call Threw callback (invalid_parameters request validationResult)
          else
            after (ToolExecuted name parameters)
              match execute_tool tool parameters with
              | Raises e => raise e
              | Returns promise =>
                  then_catch callback promise (on_fulfilled request)
                    (tool_on_rejected request)
              end
      end
  end.

Definition handlePromptCall (server : ReadwiseMCPServer)
    (callback : Response -> option thrown) (request : value) : result :=
  let name := JS.get "name" request in
  let parameters := JS.get "parameters" request in
  let request_id := JS.get "request_id" request in
  match registry_get (promptRegistry server) name with
  | None =>
      match ToString name with
      | Raises e => raise e
      | Returns name_ =>
          call Threw callback
            (error_response transport "prompt_not_found"
               (Text ("Prompt not found: " +:+ name_)) None request_id)
      end
  | Some prompt =>
      match validation_result (prompt_validate prompt) parameters with
      | Raises e => raise e
      | Returns validationResult =>
          if negb (Validation.valid validationResult) then
            call Threw callback (invalid_parameters request validationResult)
          else
            after (PromptExecuted name parameters)
              match prompt_execute prompt parameters with
              | Raises e => raise e
              | Returns promise =>
                  then_catch callback promise (on_fulfilled request)
                    (fun error => Returns (prompt_on_rejected request error))
              end
      end
  end.

Definition handleMCPRequest (server : ReadwiseMCPServer)
    (callback : Response -> option thrown) (request : value) : result :=
  match validateMCPRequest request with
  | Raises e => raise e
  | Returns validation_ =>
      if negb (valid validation_) then
        call Threw callback
          (error_response transport "invalid_request"
             (Text (match error validation_ with
                    | Some why => if String.eqb why "" then "Invalid request format" else why
                    | None => "Invalid request format"
                    end))
             None
             (if JS.truthy (JS.get "request_id" request)
              then JS.get "request_id" request
              else VString "unknown"))
      else
        let requestType := JS.get "type" request in
        let requestId := JS.get "request_id" request in
        if JS.is_string "tool_call" requestType then handleToolCall server callback request
        else if JS.is_string "prompt_call" requestType then
          handlePromptCall server callback request
        else
          match ToString requestType with
          | Raises e => raise e
          | Returns type =>
              call Threw callback
                (error_response transport "invalid_request_type"
                   (Text ("Unknown request type: " +:+ type)) None requestId)
          end
  end.

(** The handler of [process.stdin.on('data', ...)], whose catch clause
    answers an exception that leaves handleMCPRequest as it answers one
    of JSON.parse.  The callback it passes writes one line and
    returns. *)
Definition on_stdin_data (server : ReadwiseMCPServer) (data : string)
    : option (list stdio_event) :=
  let input := JS.trim data in
  if String.eqb input "" then Some []
  else
    match JSON.parse input with
    | Ok request =>
        let r := handleMCPRequest server (fun _ => None) request in
        Some (Dispatched request :: map Written (callbacks (trace r))
              ++ match end_ r with
                 | Threw error =>
                     [Written (error_response transport "invalid_request"
                                 match error with
                                 | ErrorInstance m _ => m
                                 | Thrown _ => Text "Invalid request"
                                 end
                                 None (VString "unknown"))]
                 | Completed | UnhandledRejection _ => []
                 end)%list
    | SyntaxError => Some [Written (parse_error_response input)]
    | Unsupported | OutOfFuel => None
    end.

End Run.

(** An operation of the first model is one that never raises. *)
Definition never_raising_tool (tool : BaseMCPTool) : Run.BaseMCPTool :=
  {| Run.tool_validate := (fun f parameters => Returns (f parameters)) <$> tool_validate tool;
     Run.tool_executeAsMCP :=
       (fun f parameters => Returns (f parameters)) <$> tool_executeAsMCP tool;
     Run.tool_execute := fun parameters => Returns (tool_execute tool parameters) |}.

Definition never_raising_prompt (prompt : BaseMCPPrompt) : Run.BaseMCPPrompt :=
  {| Run.prompt_validate :=
       (fun f parameters => Returns (f parameters)) <$> prompt_validate prompt;
     Run.prompt_execute := fun parameters => Returns (prompt_execute prompt parameters) |}.

Definition never_raising (server : ReadwiseMCPServer) : Run.ReadwiseMCPServer :=
  {| Run.toolRegistry := never_raising_tool <$> toolRegistry server;
     Run.promptRegistry := never_raising_prompt <$> promptRegistry server |}.

(** * Properties *)

(** ** The value model on examples *)

Example stringify_object :
  JS.JSON_stringify
    (VObject [("id", VNumber 42); ("tags", VArray [VString "a"; VNull]); ("skip", VUndefined)])
  = Some (JSON.text "{'id':42,'tags':['a',null]}").
Proof. reflexivity. Qed.

Example trim_line :
  JS.trim (String (ascii_of_N 9) " {}  " +:+ String (ascii_of_N 10) "") = "{}".
Proof. reflexivity. Qed.

Example to_string_negative :
  JS.ToString (VArray [VNumber (-7); VNull; VBool true]) = "-7,,true".
Proof. reflexivity. Qed.

Example parse_envelope :
  JSON.parse (JSON.text "{'type':'tool_call','name':'get_tags','request_id':'r1','parameters':{}}")
  = Ok (envelope "tool_call" "get_tags" "r1" (VObject [])).
Proof. reflexivity. Qed.

Example parse_nested :
  JSON.parse (JSON.text " [1, -20, {'a': [true, null], 'a': 'x\ty'}, 'q' ] ")
  = Ok (VArray [VNumber 1; VNumber (-20);
                VObject [("a", VString ("x" +:+ String (ascii_of_N 9) "y"))]; VString "q"]).
Proof. reflexivity. Qed.

Example parse_trailing_comma : JSON.parse "[1,]" = SyntaxError.
Proof. reflexivity. Qed.

Example parse_leading_zero : JSON.parse "012" = SyntaxError.
Proof. reflexivity. Qed.

Example parse_fraction : JSON.parse "[1.5]" = Unsupported.
Proof. reflexivity. Qed.

(** End-to-end scenario 1 of the specification, at the dispatcher. *)
Example scenario_tool_not_found :
  handleMCPRequest empty_server (envelope "tool_call" "get_tags" "r1" (VObject []))
  = [Callback (error_response transport "tool_not_found"
                 (Text "Tool not found: get_tags") None (VString "r1"))].
Proof. reflexivity. Qed.

(** ** JSON.parse has fuel enough *)

Lemma bind_Ok {A B} (r : outcome A) (k : A -> outcome B) b :
  bind r k = Ok b -> exists a, r = Ok a /\ k a = Ok b.
Proof. destruct r; simpl; try discriminate. intros H. now exists a. Qed.

Lemma bind_OutOfFuel {A B} (r : outcome A) (k : A -> outcome B) :
  bind r k = OutOfFuel -> r = OutOfFuel \/ exists a, r = Ok a /\ k a = OutOfFuel.
Proof. destruct r; simpl; try discriminate; [right; now exists a|now left]. Qed.

Lemma skip_ws_length s : (String.length (JSON.skip_ws s) <= String.length s)%nat.
Proof.
  induction s as [|c s IH]; simpl; [lia|].
  destruct (JSON.is_ws c); simpl; lia.
Qed.

Lemma skip_ws_cons s c rest :
  JSON.skip_ws s = String c rest -> (String.length rest < String.length s)%nat.
Proof.
  intros H. pose proof (skip_ws_length s) as Hl. rewrite H in Hl. simpl in Hl. lia.
Qed.

Lemma string_body_progress n :
  forall s, (String.length s <= n)%nat ->
    JSON.string_body s <> OutOfFuel
    /\ forall str rest, JSON.string_body s = Ok (str, rest) ->
                        (String.length rest < String.length s)%nat.
Proof.
  induction n as [|n IH]; intros s Hn.
  - destruct s; [|simpl in Hn; lia]. simpl. split; [discriminate|intros ? ? [=]].
  - destruct s as [|c rest]; [simpl; split; [discriminate|intros ? ? [=]]|].
    simpl in Hn.
    assert (Hcons : forall u t, (String.length t <= n)%nat ->
              JSON.cons_char u (JSON.string_body t) <> OutOfFuel
              /\ forall str rest', JSON.cons_char u (JSON.string_body t) = Ok (str, rest') ->
                                   (String.length rest' < String.length t)%nat).
    { intros u t Ht. destruct (IH t Ht) as [Hf Hs]. unfold JSON.cons_char. split.
      - intros H. apply bind_OutOfFuel in H. destruct H as [H|([str r] & _ & H)];
          [contradiction|discriminate].
      - intros str rest' H. apply bind_Ok in H. destruct H as ([str0 r] & H & [= _ <-]).
        eapply Hs; eassumption. }
    simpl.
    destruct (JSON.code c =? 34); [split; [discriminate|intros ? ? [= _ <-]; lia]|].
    destruct (JSON.code c <? 32); [split; [discriminate|intros ? ? [=]]|].
    destruct (JSON.code c =? 92).
    + destruct rest as [|e rest1]; [split; [discriminate|intros ? ? [=]]|].
      destruct (JSON.code e =? 117).
      * destruct rest1 as [|h1 [|h2 [|h3 [|h4 rest2]]]];
          try (split; [discriminate|intros ? ? [=]]).
        destruct (JSON.unit_of_hex h1 h2 h3 h4) eqn:Hu;
          try (split; [discriminate|intros ? ? [=]]).
        -- destruct (Hcons a rest2) as [Hf Hs]; [simpl in Hn; lia|].
           split; [exact Hf|]. intros str r H. apply Hs in H. simpl. lia.
        -- exfalso. unfold JSON.unit_of_hex in Hu.
           destruct (JSON.hex_value h1), (JSON.hex_value h2), (JSON.hex_value h3),
             (JSON.hex_value h4); try discriminate.
           destruct (_ <? 256); discriminate.
      * destruct (JSON.escape e); [|split; [discriminate|intros ? ? [=]]].
        destruct (Hcons a rest1) as [Hf Hs]; [simpl in Hn; lia|].
        split; [exact Hf|]. intros str r H. apply Hs in H. simpl. lia.
    + destruct (Hcons c rest) as [Hf Hs]; [lia|].
      split; [exact Hf|]. intros str r H. apply Hs in H. lia.
Qed.

Lemma digits_length s acc :
  (String.length (snd (JSON.digits s acc)) <= String.length s)%nat.
Proof.
  revert acc. induction s as [|c s IH]; intros acc; simpl; [lia|].
  destruct (JSON.is_digit c); simpl; [specialize (IH (acc * 10 + (JSON.code c - 48))); lia|lia].
Qed.

Lemma in_model_progress n rest :
  JSON.in_model n rest <> OutOfFuel
  /\ forall n' rest', JSON.in_model n rest = Ok (n', rest') -> rest' = rest.
Proof.
  unfold JSON.in_model. destruct rest as [|d rest0].
  - destruct (n <=? 2 ^ 53); split; try discriminate; intros ? ? [=]; congruence.
  - destruct (_ || _); [split; [discriminate|intros ? ? [=]]|].
    destruct (n <=? 2 ^ 53); split; try discriminate; intros ? ? [=]; congruence.
Qed.

Lemma unsigned_progress s :
  JSON.unsigned s <> OutOfFuel
  /\ forall n rest, JSON.unsigned s = Ok (n, rest) ->
                    (String.length rest < String.length s)%nat.
Proof.
  unfold JSON.unsigned. destruct s as [|c rest]; [split; [discriminate|intros ? ? [=]]|].
  destruct (negb _); [split; [discriminate|intros ? ? [=]]|].
  destruct (JSON.code c =? 48).
  - destruct (in_model_progress 0 rest) as [Hf Hs]. split; [exact Hf|].
    intros n r H. apply Hs in H. subst. simpl. lia.
  - destruct (in_model_progress (fst (JSON.digits rest (JSON.code c - 48)))
                (snd (JSON.digits rest (JSON.code c - 48)))) as [Hf Hs].
    split; [exact Hf|]. intros n r H. apply Hs in H. subst.
    pose proof (digits_length rest (JSON.code c - 48)). simpl. lia.
Qed.

Lemma number_progress s :
  JSON.number s <> OutOfFuel
  /\ forall v rest, JSON.number s = Ok (v, rest) ->
                    (String.length rest < String.length s)%nat.
Proof.
  unfold JSON.number. destruct s as [|c rest]; [split; [discriminate|intros ? ? [=]]|].
  destruct (JSON.code c =? 45).
  - destruct (unsigned_progress rest) as [Hf Hs]. split.
    + intros H. apply bind_OutOfFuel in H. destruct H as [H|([n r] & _ & H)];
        [contradiction|discriminate].
    + intros v r H. apply bind_Ok in H. destruct H as ([n r0] & H & [= _ <-]).
      apply Hs in H. simpl. lia.
  - destruct (unsigned_progress (String c rest)) as [Hf Hs]. split.
    + intros H. apply bind_OutOfFuel in H. destruct H as [H|([n r] & _ & H)];
        [contradiction|discriminate].
    + intros v r H. apply bind_Ok in H. destruct H as ([n r0] & H & [= _ <-]).
      now apply Hs in H.
Qed.

Lemma slice_startsWith w s :
  JS.startsWith w s = true ->
  (String.length (JS.slice (String.length w) s) + String.length w = String.length s)%nat.
Proof.
  revert s. induction w as [|a w IH]; intros s H; simpl in *; [lia|].
  destruct s as [|b s]; [discriminate|].
  apply andb_true_iff in H. destruct H as [_ H]. apply IH in H. simpl. lia.
Qed.

Lemma literal_progress w v s :
  w <> "" ->
  JSON.literal w v s <> OutOfFuel
  /\ forall v' rest, JSON.literal w v s = Ok (v', rest) ->
                     (String.length rest < String.length s)%nat.
Proof.
  intros Hw. unfold JSON.literal. destruct (JS.startsWith w s) eqn:E.
  - split; [discriminate|]. intros v' rest [= _ <-].
    apply slice_startsWith in E. destruct w as [|a w]; [contradiction|].
    change (String.length (String a w)) with (S (String.length w)) in *. lia.
  - split; [discriminate|intros ? ? [=]].
Qed.

Lemma scalar_progress s :
  JSON.scalar s <> OutOfFuel
  /\ forall v rest, JSON.scalar s = Ok (v, rest) ->
                    (String.length rest < String.length s)%nat.
Proof.
  unfold JSON.scalar. destruct s as [|c rest]; [split; [discriminate|intros ? ? [=]]|].
  destruct (JSON.code c =? 34).
  - destruct (string_body_progress _ rest (le_n _)) as [Hf Hs]. split.
    + intros H. apply bind_OutOfFuel in H. destruct H as [H|([n r] & _ & H)];
        [contradiction|discriminate].
    + intros v r H. apply bind_Ok in H. destruct H as ([n r0] & H & [= _ <-]).
      apply Hs in H. simpl. lia.
  - destruct (JSON.code c =? 116); [apply literal_progress; discriminate|].
    destruct (JSON.code c =? 102); [apply literal_progress; discriminate|].
    destruct (JSON.code c =? 110); [apply literal_progress; discriminate|].
    apply number_progress.
Qed.

(** With fuel for two steps per character, the three parsers never run
    out of it, and what they leave is shorter than what they got. *)
#[local] Arguments JSON.scalar : simpl never.

Lemma parser_progress fuel :
  (forall s, (2 * String.length s + 1 <= fuel)%nat -> JSON.value_ fuel s <> OutOfFuel)
  /\ (forall s v rest, JSON.value_ fuel s = Ok (v, rest) ->
                       (String.length rest < String.length s)%nat)
  /\ (forall s acc, (2 * String.length s + 2 <= fuel)%nat ->
                    JSON.elements fuel s acc <> OutOfFuel)
  /\ (forall s acc v rest, JSON.elements fuel s acc = Ok (v, rest) ->
                           (String.length rest < String.length s)%nat)
  /\ (forall s acc, (2 * String.length s + 2 <= fuel)%nat ->
                    JSON.members fuel s acc <> OutOfFuel)
  /\ (forall s acc v rest, JSON.members fuel s acc = Ok (v, rest) ->
                           (String.length rest < String.length s)%nat).
Proof.
  induction fuel as [|fuel (IHvf & IHvs & IHef & IHes & IHmf & IHms)].
  { repeat split; intros; simpl in *; try lia; discriminate. }
  split; [|split; [|split; [|split; [|split]]]].
  - (* value_, fuel *)
    intros s Hfuel. simpl.
    destruct (JSON.skip_ws s) as [|c rest] eqn:Hs; [discriminate|].
    apply skip_ws_cons in Hs.
    destruct (JSON.code c =? 123).
    { destruct (JSON.skip_ws rest) as [|c' rest']; [discriminate|].
      destruct (JSON.code c' =? 125); [discriminate|]. apply IHmf. lia. }
    destruct (JSON.code c =? 91).
    { destruct (JSON.skip_ws rest) as [|c' rest']; [discriminate|].
      destruct (JSON.code c' =? 93); [discriminate|]. apply IHef. lia. }
    apply (proj1 (scalar_progress _)).
  - (* value_, progress *)
    intros s v r. simpl.
    destruct (JSON.skip_ws s) as [|c rest] eqn:Hs; [discriminate|].
    pose proof (skip_ws_length s) as Hl. rewrite Hs in Hl.
    change (String.length (String c rest)) with (S (String.length rest)) in Hl.
    destruct (JSON.code c =? 123).
    { destruct (JSON.skip_ws rest) as [|c' rest'] eqn:Hr; [discriminate|].
      apply skip_ws_cons in Hr.
      destruct (JSON.code c' =? 125); [intros [= _ <-]; lia|].
      intros H. apply IHms in H. lia. }
    destruct (JSON.code c =? 91).
    { destruct (JSON.skip_ws rest) as [|c' rest'] eqn:Hr; [discriminate|].
      apply skip_ws_cons in Hr.
      destruct (JSON.code c' =? 93); [intros [= _ <-]; lia|].
      intros H. apply IHes in H. lia. }
    intros H. apply (proj2 (scalar_progress _)) in H.
    change (String.length (String c rest)) with (S (String.length rest)) in H. lia.
  - (* elements, fuel *)
    intros s acc Hfuel. simpl. intros H. apply bind_OutOfFuel in H.
    destruct H as [H|([v rest] & Hv & H)]; [revert H; apply IHvf; lia|].
    apply IHvs in Hv.
    destruct (JSON.skip_ws rest) as [|c rest'] eqn:Hr; [discriminate|].
    apply skip_ws_cons in Hr.
    destruct (JSON.code c =? 44); [revert H; apply IHef; lia|].
    destruct (JSON.code c =? 93); discriminate.
  - (* elements, progress *)
    intros s acc v r. simpl. intros H. apply bind_Ok in H.
    destruct H as ([v0 rest] & Hv & H). apply IHvs in Hv.
    destruct (JSON.skip_ws rest) as [|c rest'] eqn:Hr; [discriminate|].
    apply skip_ws_cons in Hr.
    destruct (JSON.code c =? 44); [apply IHes in H; lia|].
    destruct (JSON.code c =? 93); [injection H as _ <-; lia|discriminate].
  - (* members, fuel *)
    intros s acc Hfuel. simpl.
    destruct (JSON.skip_ws s) as [|q rest] eqn:Hs; [discriminate|].
    apply skip_ws_cons in Hs.
    destruct (negb _); [discriminate|].
    intros H. apply bind_OutOfFuel in H.
    destruct H as [H|([key rest1] & Hk & H)];
      [revert H; apply (string_body_progress _ rest (le_n _))|].
    apply (string_body_progress _ rest (le_n _)) in Hk.
    destruct (JSON.skip_ws rest1) as [|colon rest2] eqn:H1; [discriminate|].
    apply skip_ws_cons in H1.
    destruct (negb _); [discriminate|].
    apply bind_OutOfFuel in H.
    destruct H as [H|([v rest3] & Hv & H)]; [revert H; apply IHvf; lia|].
    apply IHvs in Hv.
    destruct (JSON.skip_ws rest3) as [|c rest'] eqn:H3; [discriminate|].
    apply skip_ws_cons in H3.
    destruct (JSON.code c =? 44); [revert H; apply IHmf; lia|].
    destruct (JSON.code c =? 125); discriminate.
  - (* members, progress *)
    intros s acc v r. simpl.
    destruct (JSON.skip_ws s) as [|q rest] eqn:Hs; [discriminate|].
    apply skip_ws_cons in Hs.
    destruct (negb _); [discriminate|].
    intros H. apply bind_Ok in H. destruct H as ([key rest1] & Hk & H).
    apply (string_body_progress _ rest (le_n _)) in Hk.
    destruct (JSON.skip_ws rest1) as [|colon rest2] eqn:H1; [discriminate|].
    apply skip_ws_cons in H1.
    destruct (negb _); [discriminate|].
    apply bind_Ok in H. destruct H as ([v0 rest3] & Hv & H). apply IHvs in Hv.
    destruct (JSON.skip_ws rest3) as [|c rest'] eqn:H3; [discriminate|].
    apply skip_ws_cons in H3.
    destruct (JSON.code c =? 44); [apply IHms in H; lia|].
    destruct (JSON.code c =? 125); [injection H as _ <-; lia|discriminate].
Qed.

(** JSON.parse always has an answer: a value, a SyntaxError, or a text
    outside the model. *)
Lemma parse_fuelled s : JSON.parse s <> OutOfFuel.
Proof.
  unfold JSON.parse. intros H. apply bind_OutOfFuel in H.
  destruct H as [H|([v rest] & _ & H)].
  - revert H. apply (proj1 (parser_progress _)). lia.
  - destruct (JSON.skip_ws rest); discriminate.
Qed.

(** ** Envelope validation *)

Lemma is_string_true s v : JS.is_string s v = true -> v = VString s.
Proof.
  destruct v; simpl; try discriminate.
  intros H. apply String.eqb_eq in H. now subst.
Qed.

Lemma typeof_string v : JS.typeof v = "string" -> exists s, v = VString s.
Proof. destruct v; simpl; try discriminate. intros _. now eexists. Qed.

Ltac bool_hyps :=
  repeat match goal with
    | H : (_ || _) = false |- _ => apply orb_false_iff in H; destruct H
    | H : (_ && _) = false |- _ => apply andb_false_iff in H
    | H : negb _ = false |- _ => apply negb_false_iff in H
    | H : negb _ = true |- _ => apply negb_true_iff in H
    | H : String.eqb _ _ = true |- _ => apply String.eqb_eq in H
    | H : String.eqb _ _ = false |- _ => apply String.eqb_neq in H
    end.

Lemma valid_well_formed request :
  valid (validateMCPRequest request) = true -> well_formed request.
Proof.
  unfold validateMCPRequest. intros H.
  repeat match type of H with
    | context [if ?c then _ else _] => destruct c eqn:?; [discriminate H|]
    end.
  bool_hyps.
  split; auto.
  - simpl. intros k Hk. intuition (subst; auto).
  - match goal with
    | H : _ \/ _ |- _ => destruct H as [H|H]; apply negb_false_iff, is_string_true in H; auto
    end.
  - match goal with
    | H : JS.typeof (JS.get "name" _) = _ |- _ => destruct (typeof_string _ H) as [s Hs]
    end.
    exists s. split; [assumption|]. rewrite Hs in *. simpl in *. assumption.
  - match goal with
    | H : JS.typeof (JS.get "request_id" _) = _ |- _ => destruct (typeof_string _ H) as [s Hs]
    end.
    exists s. split; [assumption|]. rewrite Hs in *. simpl in *. assumption.
Qed.

Lemma malformed_invalid request :
  malformed request -> valid (validateMCPRequest request) = false.
Proof.
  intros Hbad. destruct (valid (validateMCPRequest request)) eqn:Hv; [|reflexivity].
  exfalso. apply valid_well_formed in Hv. destruct Hv as [[Ht Ho] Hf Hty Hn Hid Hp].
  destruct Hbad as [[H|H] | k Hk H | H1 H2 | H | H | H].
  - congruence.
  - contradiction.
  - rewrite (Hf k Hk) in H. discriminate.
  - destruct Hty; contradiction.
  - destruct Hn as (s & Hs & Hne). auto.
  - destruct Hid as (s & Hs & Hne). auto.
  - contradiction.
Qed.

Lemma invalid_malformed request :
  valid (validateMCPRequest request) = false -> malformed request.
Proof.
  unfold validateMCPRequest. intros H.
  repeat match type of H with
    | context [if ?c then _ else _] => destruct c eqn:?
    end; try discriminate H; clear H; bool_hyps;
    repeat match goal with
      | H : (_ || _) = true |- _ => apply orb_true_iff in H; destruct H
      | H : (_ && _) = true |- _ => apply andb_true_iff in H; destruct H
      end; bool_hyps.
  - apply not_an_object. now left.
  - apply not_an_object. now right.
  - apply (missing_field _ "type"); [simpl; tauto|assumption].
  - apply (missing_field _ "name"); [simpl; tauto|assumption].
  - apply (missing_field _ "request_id"); [simpl; tauto|assumption].
  - apply unknown_type; intros E; rewrite E in *; discriminate.
  - apply bad_name. intros s Hs. rewrite Hs in *. simpl in *. congruence.
  - apply bad_name. intros s Hs. rewrite Hs in *. simpl in *. assumption.
  - apply bad_request_id. intros s Hs. rewrite Hs in *. simpl in *. congruence.
  - apply bad_request_id. intros s Hs. rewrite Hs in *. simpl in *. assumption.
  - apply (missing_field _ "parameters"); [simpl; tauto|assumption].
  - apply primitive_parameters. assumption.
Qed.

Lemma invalid_response server request :
  valid (validateMCPRequest request) = false ->
  exists why,
    handleMCPRequest server request
    = [Callback (error_response transport "invalid_request" (Text why) None
                   (if JS.truthy (JS.get "request_id" request)
                    then JS.get "request_id" request
                    else VString "unknown"))].
Proof.
  intros Hv. unfold handleMCPRequest. rewrite Hv. simpl. eexists. reflexivity.
Qed.

(** ** The dispatcher on its branches *)

Lemma then_catch_one promise onFulfilled onRejected :
  exists response, then_catch promise onFulfilled onRejected = [Callback response].
Proof.
  unfold then_catch. destruct promise as [result|err].
  - destruct (onFulfilled result); eexists; reflexivity.
  - eexists; reflexivity.
Qed.




(** ** The dispatcher with its exceptions *)

Lemma ToString_returns v :
  Run.ToString_raises v = false -> Run.ToString v = Returns (JS.ToString v).
Proof. unfold Run.ToString. now intros ->. Qed.

Lemma ToString_string s : Run.ToString (VString s) = Returns s.
Proof. reflexivity. Qed.

(** validateMCPRequest returns the verdict of the first model, or it
    raises the TypeError of the conversion of [request.type]; it raises
    on no request that the first model accepts. *)
Lemma validateMCPRequest_cases request :
  Run.validateMCPRequest request = Returns (validateMCPRequest request)
  \/ (Run.validateMCPRequest request = Raises Run.TypeError
      /\ Run.ToString_raises (JS.get "type" request) = true
      /\ valid (validateMCPRequest request) = false).
Proof.
  unfold Run.validateMCPRequest, validateMCPRequest, Run.ToString.
  do 4 (match goal with
        | |- context [if ?c then _ else _] => destruct c; [now left|]
        end).
  destruct (negb _ && negb _).
  - destruct (Run.ToString_raises _); [right; repeat split|left]; reflexivity.
  - repeat match goal with
      | |- context [if ?c then _ else _] => destruct c; [now left|]
      end.
    now left.
Qed.

Lemma validateMCPRequest_returns request :
  Run.ToString_raises (JS.get "type" request) = false ->
  Run.validateMCPRequest request = Returns (validateMCPRequest request).
Proof.
  intros H. destruct (validateMCPRequest_cases request) as [E|(_ & E & _)]; [exact E|].
  congruence.
Qed.

Lemma validateMCPRequest_accepts request :
  valid (validateMCPRequest request) = true ->
  Run.validateMCPRequest request = Returns (validateMCPRequest request).
Proof.
  intros H. destruct (validateMCPRequest_cases request) as [E|(_ & _ & E)]; [exact E|].
  congruence.
Qed.

(** The request on which validateMCPRequest raises, as it arrives. *)
Example raising_request_parses :
  JSON.parse (JSON.text
    "{'type':{'toString':1},'name':'get_tags','request_id':'r1','parameters':{}}")
  = Ok (VObject [("type", VObject [("toString", VNumber 1)]);
                 ("name", VString "get_tags"); ("request_id", VString "r1");
                 ("parameters", VObject [])]).
Proof. reflexivity. Qed.

(** C1.  The claim fails on the code.  The request
    [{"type":{"toString":1},"name":"get_tags","request_id":"r1","parameters":{}}]
    has the three fields that validateMCPRequest asks for first, and a
    type that is neither tool_call nor prompt_call; the text of the
    verdict is built with [request.type] in a template literal, and the
    conversion of this object to a string raises a TypeError.  The
    exception leaves validateMCPRequest and handleMCPRequest: whatever
    the registries hold and whatever the callback is, the callback is
    not called, where the claim has it called exactly once. *)
Theorem C1_callback_not_called (server : Run.ReadwiseMCPServer)
    (callback : Response -> option thrown) :
  let request :=
    VObject [("type", VObject [("toString", VNumber 1)]);
             ("name", VString "get_tags"); ("request_id", VString "r1");
             ("parameters", VObject [])] in
  Run.validateMCPRequest request = Raises Run.TypeError
  /\ Run.handleMCPRequest server callback request
     = {| Run.trace := []; Run.end_ := Run.Threw Run.TypeError |}
  /\ callbacks (Run.trace (Run.handleMCPRequest server callback request)) = [].
Proof. split; [|split]; reflexivity. Qed.

(** On stdin the client of that request is answered by the catch clause
    of the adapter: the line carries the sentinel, not the request_id
    "r1" of the request. *)
Example raising_request_on_stdin server :
  Run.on_stdin_data server
    (JSON.text "{'type':{'toString':1},'name':'get_tags','request_id':'r1','parameters':{}}")
  = Some [Dispatched (VObject [("type", VObject [("toString", VNumber 1)]);
                               ("name", VString "get_tags"); ("request_id", VString "r1");
                               ("parameters", VObject [])]);
          Written (error_response transport "invalid_request"
                     (Text "Cannot convert object to primitive value") None
                     (VString "unknown"))].
Proof. reflexivity. Qed.

(** *** The first model is the dispatcher on the runs without exception *)

Lemma registry_get_never_raising {A B : Type} (f : A -> B) (registry : gmap string A) name :
  registry_get (f <$> registry) name = f <$> registry_get registry name.
Proof. destruct name; try reflexivity. apply lookup_fmap. Qed.

Lemma tool_on_rejected_returns request error response :
  Run.tool_on_rejected request error = Returns response ->
  response = tool_on_rejected request error.
Proof.
  unfold Run.tool_on_rejected, tool_on_rejected, Run.ToString.
  destruct (object_with "code" _); [destruct (Run.ToString_raises _); [discriminate|]|];
    (destruct (object_with "message" _);
     [destruct (Run.ToString_raises _); [discriminate|]|]); now intros [= <-].
Qed.

Lemma then_catch_completed promise onFulfilled onRejected onRejected' :
  (forall error response, onRejected' error = Returns response -> response = onRejected error) ->
  Run.end_ (Run.then_catch (fun _ => None) promise onFulfilled onRejected') = Run.Completed ->
  Run.trace (Run.then_catch (fun _ => None) promise onFulfilled onRejected')
  = then_catch promise onFulfilled onRejected.
Proof.
  intros Hsame. unfold Run.then_catch, then_catch.
  destruct promise as [result|error].
  - destruct (onFulfilled result) as [response|error]; [reflexivity|].
    destruct (onRejected' error) as [response|e] eqn:E; [|discriminate].
    now rewrite (Hsame _ _ E).
  - destruct (onRejected' error) as [response|e] eqn:E; [|discriminate].
    now rewrite (Hsame _ _ E).
Qed.

(** With operations that do not raise and a callback that returns, a
    call of the dispatcher that ends without exception does what the
    first model says. *)
Lemma dispatcher_without_exception server request :
  Run.end_ (Run.handleMCPRequest (never_raising server) (fun _ => None) request)
  = Run.Completed ->
  Run.trace (Run.handleMCPRequest (never_raising server) (fun _ => None) request)
  = handleMCPRequest server request.
Proof.
  unfold Run.handleMCPRequest, handleMCPRequest.
  destruct (validateMCPRequest_cases request) as [->|(-> & _)]; [|discriminate].
  destruct (negb (valid (validateMCPRequest request))); [reflexivity|].
  destruct (JS.is_string "tool_call" _).
  { unfold Run.handleToolCall, handleToolCall. simpl Run.toolRegistry.
    rewrite registry_get_never_raising.
    destruct (registry_get (toolRegistry server) _) as [tool|]; simpl.
    - unfold Run.validation_result, validation_result, Run.execute_tool, execute_tool. simpl.
      destruct (tool_validate tool) as [validate|]; simpl.
      + destruct (negb _); [reflexivity|].
        destruct (tool_executeAsMCP tool); unfold Run.after;
          cbn [Run.trace Run.end_ fmap option_fmap option_map];
          intros H; f_equal; apply then_catch_completed;
          auto using tool_on_rejected_returns.
      + destruct (tool_executeAsMCP tool); unfold Run.after;
          cbn [Run.trace Run.end_ fmap option_fmap option_map];
          intros H; f_equal; apply then_catch_completed;
          auto using tool_on_rejected_returns.
    - unfold Run.ToString. destruct (Run.ToString_raises _); [discriminate|reflexivity]. }
  destruct (JS.is_string "prompt_call" _).
  { unfold Run.handlePromptCall, handlePromptCall. simpl Run.promptRegistry.
    rewrite registry_get_never_raising.
    destruct (registry_get (promptRegistry server) _) as [prompt|]; simpl.
    - unfold Run.validation_result, validation_result. simpl.
      destruct (prompt_validate prompt) as [validate|]; simpl.
      + destruct (negb _); [reflexivity|].
        unfold Run.after; cbn [Run.trace Run.end_].
        intros H; f_equal; apply then_catch_completed; [|exact H].
        now intros error response [= <-].
      + unfold Run.after; cbn [Run.trace Run.end_].
        intros H; f_equal; apply then_catch_completed; [|exact H].
        now intros error response [= <-].
    - unfold Run.ToString. destruct (Run.ToString_raises _); [discriminate|reflexivity]. }
  unfold Run.ToString. destruct (Run.ToString_raises _); [discriminate|reflexivity].
Qed.

(** With a callback that returns and a rejection handler that returns,
    the chain ends without exception. *)
Lemma then_catch_quiet promise onFulfilled onRejected :
  (forall error, exists response, onRejected error = Returns response) ->
  Run.end_ (Run.then_catch (fun _ => None) promise onFulfilled onRejected) = Run.Completed.
Proof.
  intros H. unfold Run.then_catch.
  destruct promise as [result|error].
  - destruct (onFulfilled result) as [response|error]; [reflexivity|].
    destruct (H error) as [response ->]. reflexivity.
  - destruct (H error) as [response ->]. reflexivity.
Qed.

(** *** How often the callback is called *)

Lemma then_catch_callbacks callback promise onFulfilled onRejected :
  (length (callbacks (Run.trace (Run.then_catch callback promise onFulfilled onRejected))) <= 2)%nat.
Proof.
  unfold Run.then_catch, Run.call, Run.after.
  destruct promise as [result|error].
  - destruct (onFulfilled result) as [response|error].
    + destruct (callback response) as [e|]; [|simpl; lia].
      destruct (onRejected e); simpl; lia.
    + destruct (onRejected error); simpl; lia.
  - destruct (onRejected error); simpl; lia.
Qed.

(** The callback is called at most twice. *)
Lemma callback_at_most_twice server callback request :
  (length (callbacks (Run.trace (Run.handleMCPRequest server callback request))) <= 2)%nat.
Proof.
  unfold Run.handleMCPRequest.
  destruct (Run.validateMCPRequest request) as [verdict|e]; [|simpl; lia].
  destruct (negb (valid verdict)); [simpl; lia|].
  destruct (JS.is_string "tool_call" _).
  { unfold Run.handleToolCall.
    destruct (registry_get _ _) as [tool|]; [|destruct (Run.ToString _); simpl; lia].
    destruct (Run.validation_result _ _) as [verdict'|e]; [|simpl; lia].
    destruct (negb _); [simpl; lia|].
    destruct (Run.execute_tool _ _) as [promise|e]; [|simpl; lia].
    apply then_catch_callbacks. }
  destruct (JS.is_string "prompt_call" _).
  { unfold Run.handlePromptCall.
    destruct (registry_get _ _) as [prompt|]; [|destruct (Run.ToString _); simpl; lia].
    destruct (Run.validation_result _ _) as [verdict'|e]; [|simpl; lia].
    destruct (negb _); [simpl; lia|].
    destruct (Run.prompt_execute _ _) as [promise|e]; [|simpl; lia].
    apply then_catch_callbacks. }
  destruct (Run.ToString _); simpl; lia.
Qed.

Lemma then_catch_returning promise onFulfilled onRejected :
  match Run.end_ (Run.then_catch (fun _ => None) promise onFulfilled onRejected) with
  | Run.Completed =>
      exists response,
        Run.trace (Run.then_catch (fun _ => None) promise onFulfilled onRejected)
        = [Callback response]
  | _ => Run.trace (Run.then_catch (fun _ => None) promise onFulfilled onRejected) = []
  end.
Proof.
  unfold Run.then_catch.
  destruct promise as [result|error].
  - destruct (onFulfilled result) as [response|error]; [simpl; eauto|].
    destruct (onRejected error); simpl; eauto.
  - destruct (onRejected error); simpl; eauto.
Qed.

(** With a callback that returns, the callback is called exactly once
    when the call of the dispatcher ends without exception, and not at
    all when it ends with one. *)
Lemma callback_once_unless_raised server request :
  match Run.end_ (Run.handleMCPRequest server (fun _ => None) request) with
  | Run.Completed =>
      exists response,
        callbacks (Run.trace (Run.handleMCPRequest server (fun _ => None) request))
        = [response]
  | _ => callbacks (Run.trace (Run.handleMCPRequest server (fun _ => None) request)) = []
  end.
Proof.
  unfold Run.handleMCPRequest.
  destruct (Run.validateMCPRequest request) as [verdict|e]; [|reflexivity].
  destruct (negb (valid verdict)); [simpl; eauto|].
  destruct (JS.is_string "tool_call" _).
  { unfold Run.handleToolCall.
    destruct (registry_get _ _) as [tool|]; [|destruct (Run.ToString _); simpl; eauto].
    destruct (Run.validation_result _ _) as [verdict'|e]; [|reflexivity].
    destruct (negb _); [simpl; eauto|].
    destruct (Run.execute_tool _ _) as [promise|e]; [|reflexivity].
    pose proof (then_catch_returning promise (on_fulfilled request)
                  (Run.tool_on_rejected request)) as H.
    simpl. destruct (Run.end_ _); [destruct H as [r ->]; simpl; eauto|rewrite H..]; reflexivity. }
  destruct (JS.is_string "prompt_call" _).
  { unfold Run.handlePromptCall.
    destruct (registry_get _ _) as [prompt|]; [|destruct (Run.ToString _); simpl; eauto].
    destruct (Run.validation_result _ _) as [verdict'|e]; [|reflexivity].
    destruct (negb _); [simpl; eauto|].
    destruct (Run.prompt_execute _ _) as [promise|e]; [|reflexivity].
    pose proof (then_catch_returning promise (on_fulfilled request)
                  (fun error => Returns (prompt_on_rejected request error))) as H.
    simpl. destruct (Run.end_ _); [destruct H as [r ->]; simpl; eauto|rewrite H..]; reflexivity. }
  destruct (Run.ToString _); simpl; eauto.
Qed.

(** A validator that raises leaves the callback uncalled too, and so
    does an execute function that raises instead of returning a
    promise. *)
Lemma validator_raises server callback request name tool validate error :
  valid (validateMCPRequest request) = true ->
  JS.get "type" request = VString "tool_call" ->
  JS.get "name" request = VString name ->
  Run.toolRegistry server !! name = Some tool ->
  Run.tool_validate tool = Some validate ->
  validate (JS.get "parameters" request) = Raises error ->
  Run.handleMCPRequest server callback request
  = {| Run.trace := []; Run.end_ := Run.Threw error |}.
Proof.
  intros Hv Ht Hn Htool Hval Hraise. unfold Run.handleMCPRequest.
  rewrite (validateMCPRequest_accepts _ Hv), Hv, Ht. simpl.
  unfold Run.handleToolCall. rewrite Hn. simpl. rewrite Htool.
  unfold Run.validation_result. rewrite Hval, Hraise. reflexivity.
Qed.

Lemma execute_raises server callback request name tool error :
  valid (validateMCPRequest request) = true ->
  JS.get "type" request = VString "tool_call" ->
  JS.get "name" request = VString name ->
  Run.toolRegistry server !! name = Some tool ->
  Run.tool_validate tool = None ->
  Run.execute_tool tool (JS.get "parameters" request) = Raises error ->
  Run.handleMCPRequest server callback request
  = {| Run.trace := [ToolExecuted (VString name) (JS.get "parameters" request)];
       Run.end_ := Run.Threw error |}.
Proof.
  intros Hv Ht Hn Htool Hval Hraise. unfold Run.handleMCPRequest.
  rewrite (validateMCPRequest_accepts _ Hv), Hv, Ht. simpl.
  unfold Run.handleToolCall. rewrite Hn. simpl. rewrite Htool.
  unfold Run.validation_result. rewrite Hval. simpl. rewrite Hraise. reflexivity.
Qed.

(** A callback that raises on the success envelope is called a second
    time, by the rejection handler, with an error envelope. *)
Example callback_called_twice :
  let error := ErrorInstance (Text "write EPIPE") [] in
  let callback response :=
    match response with
    | MCPResponse _ => Some error
    | ErrorResponse _ _ _ => None
    end in
  exists success,
    Run.handleMCPRequest (never_raising sample_server) callback
      (envelope "tool_call" "get_tags" "r1" (VObject [("result", VNumber 7)]))
    = {| Run.trace :=
           [ToolExecuted (VString "get_tags") (VObject [("result", VNumber 7)]);
            Callback (MCPResponse success);
            Callback (error_response execution "tool_error" (Text "write EPIPE") None
                        (VString "r1"))];
         Run.end_ := Run.Completed |}.
Proof. eexists. vm_compute. reflexivity. Qed.

(** No request is executed twice. *)
Lemma at_most_one_execution server request :
  (executions (handleMCPRequest server request) <= 1)%nat.
Proof.
  unfold handleMCPRequest.
  destruct (negb (valid (validateMCPRequest request))); [simpl; lia|].
  destruct (JS.is_string "tool_call" _).
  - unfold handleToolCall. destruct (registry_get _ _) as [tool|]; [|simpl; lia].
    destruct (negb _); [simpl; lia|].
    destruct (then_catch_one (execute_tool tool (JS.get "parameters" request))
                (on_fulfilled request) (tool_on_rejected request)) as [r ->].
    simpl; lia.
  - destruct (JS.is_string "prompt_call" _); [|simpl; lia].
    unfold handlePromptCall. destruct (registry_get _ _) as [prompt|]; [|simpl; lia].
    destruct (negb _); [simpl; lia|].
    destruct (then_catch_one (prompt_execute prompt (JS.get "parameters" request))
                (on_fulfilled request) (prompt_on_rejected request)) as [r ->].
    simpl; lia.
Qed.

(** C9.  A request that passes validateMCPRequest has type tool_call or
    prompt_call, and handleMCPRequest hands it to handleToolCall in the
    first case and to handlePromptCall in the second: the last branch
    (invalid_request_type) is never taken. *)
Theorem C9_validated_request_routed (server : ReadwiseMCPServer) (request : value) :
  valid (validateMCPRequest request) = true ->
  (JS.get "type" request = VString "tool_call"
   /\ handleMCPRequest server request = handleToolCall server request)
  \/ (JS.get "type" request = VString "prompt_call"
      /\ handleMCPRequest server request = handlePromptCall server request).
Proof.
  intros Hv. pose proof (valid_well_formed _ Hv) as Hwf.
  unfold handleMCPRequest. rewrite Hv. simpl negb. cbv iota.
  destruct (wf_type _ Hwf) as [Ht|Ht]; rewrite Ht; [left|right]; split; reflexivity.
Qed.

Lemma C9_validated_request_routed_witness :
  valid (validateMCPRequest (envelope "prompt_call" "search" "r2" (VObject []))) = true
  /\ ((JS.get "type" (envelope "prompt_call" "search" "r2" (VObject [])) = VString "tool_call"
       /\ handleMCPRequest empty_server (envelope "prompt_call" "search" "r2" (VObject []))
          = handleToolCall empty_server (envelope "prompt_call" "search" "r2" (VObject [])))
      \/ (JS.get "type" (envelope "prompt_call" "search" "r2" (VObject [])) = VString "prompt_call"
          /\ handleMCPRequest empty_server (envelope "prompt_call" "search" "r2" (VObject []))
             = handlePromptCall empty_server (envelope "prompt_call" "search" "r2" (VObject [])))).
Proof.
  split; [reflexivity|].
  apply (C9_validated_request_routed empty_server
           (envelope "prompt_call" "search" "r2" (VObject []))).
  reflexivity.
Defined.

Example run_sample_tool :
  handleMCPRequest sample_server
    (envelope "tool_call" "get_tags" "r3" (VObject [("result", VObject [("tags", VArray [])])]))
  = [ToolExecuted (VString "get_tags") (VObject [("result", VObject [("tags", VArray [])])]);
     Callback (MCPResponse
                 [("content",
                   VArray [VObject [("type", VString "text");
                                    ("text", VString (JSON.text "{'tags':[]}"))]]);
                  ("request_id", VString "r3")])].
Proof. vm_compute. reflexivity. Qed.

(** ** Resolution and parameter validation *)

Lemma routed_tool_call server request :
  valid (validateMCPRequest request) = true ->
  JS.get "type" request = VString "tool_call" ->
  handleMCPRequest server request = handleToolCall server request.
Proof.
  intros Hv Ht. unfold handleMCPRequest. rewrite Hv, Ht. reflexivity.
Qed.

Lemma routed_prompt_call server request :
  valid (validateMCPRequest request) = true ->
  JS.get "type" request = VString "prompt_call" ->
  handleMCPRequest server request = handlePromptCall server request.
Proof.
  intros Hv Ht. unfold handleMCPRequest. rewrite Hv, Ht. reflexivity.
Qed.

(** C5.  A well-formed envelope whose name is not in the registry of its
    type gets one error envelope and nothing is executed: transport /
    tool_not_found / 'Tool not found: <name>' for a tool_call,
    transport / prompt_not_found / 'Prompt not found: <name>' for a
    prompt_call, with the request's request_id. *)
Theorem C5_unregistered_name (server : ReadwiseMCPServer) (request : value) (name : string) :
  valid (validateMCPRequest request) = true ->
  JS.get "name" request = VString name ->
  (JS.get "type" request = VString "tool_call" ->
   toolRegistry server !! name = None ->
   handleMCPRequest server request
   = [Callback (error_response transport "tool_not_found"
                  (Text ("Tool not found: " +:+ name)) None (JS.get "request_id" request))]
   /\ executions (handleMCPRequest server request) = 0%nat)
  /\ (JS.get "type" request = VString "prompt_call" ->
      promptRegistry server !! name = None ->
      handleMCPRequest server request
      = [Callback (error_response transport "prompt_not_found"
                     (Text ("Prompt not found: " +:+ name)) None (JS.get "request_id" request))]
      /\ executions (handleMCPRequest server request) = 0%nat).
Proof.
  intros Hv Hn. split; intros Ht Hreg.
  - rewrite (routed_tool_call _ _ Hv Ht). unfold handleToolCall.
    rewrite Hn. simpl. rewrite Hreg. split; reflexivity.
  - rewrite (routed_prompt_call _ _ Hv Ht). unfold handlePromptCall.
    rewrite Hn. simpl. rewrite Hreg. split; reflexivity.
Qed.

Lemma C5_unregistered_name_witness :
  handleMCPRequest sample_server (envelope "tool_call" "get_books" "r1" (VObject []))
  = [Callback (error_response transport "tool_not_found"
                 (Text "Tool not found: get_books") None (VString "r1"))]
  /\ handleMCPRequest sample_server (envelope "prompt_call" "get_tags" "r2" (VObject []))
     = [Callback (error_response transport "prompt_not_found"
                    (Text "Prompt not found: get_tags") None (VString "r2"))].
Proof.
  split.
  - apply (C5_unregistered_name sample_server
             (envelope "tool_call" "get_books" "r1" (VObject [])) "get_books");
      reflexivity.
  - apply (C5_unregistered_name sample_server
             (envelope "prompt_call" "get_tags" "r2" (VObject [])) "get_tags");
      reflexivity.
Defined.



(** ** Fulfilled executions *)

Lemma assoc_set_same k x props : JS.assoc k (JS.set k x props) = Some x.
Proof.
  induction props as [|[k' v] rest IH]; simpl.
  - now rewrite String.eqb_refl.
  - destruct (String.eqb k k') eqn:E; simpl; rewrite E; [reflexivity|exact IH].
Qed.

Lemma assoc_set_other k k' x props :
  k <> k' -> JS.assoc k' (JS.set k x props) = JS.assoc k' props.
Proof.
  intros Hne. induction props as [|[k0 v] rest IH]; simpl.
  - destruct (String.eqb k' k) eqn:E; [|reflexivity].
    apply String.eqb_eq in E. congruence.
  - destruct (String.eqb k k0) eqn:E; simpl.
    + apply String.eqb_eq in E. subst k0.
      destruct (String.eqb k' k) eqn:E'; [|reflexivity].
      apply String.eqb_eq in E'. congruence.
    + now rewrite IH.
Qed.

Lemma stringify_defined v : v <> VUndefined -> exists s, JS.JSON_stringify v = Some s.
Proof.
  destruct v as [| |[|]| | | |]; intros H; try contradiction; simpl; eexists; reflexivity.
Qed.

Lemma truthy_content result :
  JS.truthy (JS.get "content" result) = true ->
  exists props, result = VObject props
                /\ JS.assoc "content" props = Some (JS.get "content" result).
Proof.
  destruct result; simpl; try discriminate.
  intros H. exists props. split; [reflexivity|].
  destruct (JS.assoc "content" props); [reflexivity|discriminate].
Qed.

(** A tool call that reaches execution: the trace is the execution and
    the one callback of [then_catch]. *)
Lemma tool_call_executes server request name tool :
  valid (validateMCPRequest request) = true ->
  JS.get "type" request = VString "tool_call" ->
  JS.get "name" request = VString name ->
  toolRegistry server !! name = Some tool ->
  Validation.valid (validation_result (tool_validate tool) (JS.get "parameters" request)) = true ->
  handleMCPRequest server request
  = ToolExecuted (VString name) (JS.get "parameters" request)
    :: then_catch (execute_tool tool (JS.get "parameters" request))
         (on_fulfilled request) (tool_on_rejected request).
Proof.
  intros Hv Ht Hn Hreg Hok.
  rewrite (routed_tool_call _ _ Hv Ht). unfold handleToolCall.
  rewrite Hn. simpl. rewrite Hreg, Hok. reflexivity.
Qed.

Lemma prompt_call_executes server request name prompt :
  valid (validateMCPRequest request) = true ->
  JS.get "type" request = VString "prompt_call" ->
  JS.get "name" request = VString name ->
  promptRegistry server !! name = Some prompt ->
  Validation.valid (validation_result (prompt_validate prompt) (JS.get "parameters" request))
  = true ->
  handleMCPRequest server request
  = PromptExecuted (VString name) (JS.get "parameters" request)
    :: then_catch (prompt_execute prompt (JS.get "parameters" request))
         (on_fulfilled request) (prompt_on_rejected request).
Proof.
  intros Hv Ht Hn Hreg Hok.
  rewrite (routed_prompt_call _ _ Hv Ht). unfold handlePromptCall.
  rewrite Hn. simpl. rewrite Hreg, Hok. reflexivity.
Qed.

(** C3, as stated, fails: a result that carries a [content] field whose
    value is falsy (here null) is not passed through; it is wrapped like
    a result without the field. *)
Lemma C3_counterexample :
  let result := VObject [("content", VNull)] in
  let request := envelope "tool_call" "get_tags" "r1" (VObject [("result", result)]) in
  valid (validateMCPRequest request) = true
  /\ execute_tool get_tags (JS.get "parameters" request) = Resolved result
  /\ JS.has_property "content" result = true
  /\ callbacks (handleMCPRequest sample_server request)
     = [MCPResponse
          [("content", VArray [VObject [("type", VString "text");
                                        ("text", VString (JSON.text "{'content':null}"))]]);
           ("request_id", VString "r1")]]
  /\ callbacks (handleMCPRequest sample_server request)
     <> [MCPResponse (JS.set "request_id" (VString "r1") (JS.spread result))].
Proof.
  repeat apply conj; try reflexivity.
  vm_compute. intros H. discriminate H.
Qed.

(** C3, amended.  A well-formed tool_call whose tool passes validation
    and whose execution fulfils with a result that is neither undefined
    nor null gets one success envelope, with the request's request_id.
    When the result's [content] is truthy the envelope is the result's
    own properties with request_id set (so its content is the result's
    content); otherwise it is the single text item that holds
    JSON.stringify(result). *)
Theorem C3_success_envelope (server : ReadwiseMCPServer) (request : value)
    (name : string) (tool : BaseMCPTool) (result : value) :
  valid (validateMCPRequest request) = true ->
  JS.get "type" request = VString "tool_call" ->
  JS.get "name" request = VString name ->
  toolRegistry server !! name = Some tool ->
  Validation.valid (validation_result (tool_validate tool) (JS.get "parameters" request)) = true ->
  execute_tool tool (JS.get "parameters" request) = Resolved result ->
  result <> VUndefined ->
  result <> VNull ->
  exists fields,
    callbacks (handleMCPRequest server request) = [MCPResponse fields]
    /\ JS.assoc "request_id" fields = Some (JS.get "request_id" request)
    /\ (JS.truthy (JS.get "content" result) = true ->
        fields = JS.set "request_id" (JS.get "request_id" request) (JS.spread result)
        /\ JS.assoc "content" fields = Some (JS.get "content" result))
    /\ (JS.truthy (JS.get "content" result) = false ->
        exists json,
          JS.JSON_stringify result = Some json
          /\ fields = [("content", VArray [VObject [("type", VString "text");
                                                    ("text", VString json)]]);
                       ("request_id", JS.get "request_id" request)]).
Proof.
  intros Hv Ht Hn Hreg Hok Hrun Hu Hnull.
  rewrite (tool_call_executes _ _ _ _ Hv Ht Hn Hreg Hok), Hrun.
  destruct (stringify_defined result Hu) as [json Hjson].
  assert (Hf : on_fulfilled request result
               = inl (MCPResponse
                        (JS.set "request_id" (JS.get "request_id" request)
                           (if JS.truthy (JS.get "content" result) then JS.spread result
                            else [("content",
                                   VArray [VObject [("type", VString "text");
                                                    ("text", VString json)]])])))).
  { unfold on_fulfilled. rewrite Hjson. destruct result; try reflexivity; contradiction. }
  simpl. rewrite Hf. eexists. split; [reflexivity|]. split; [apply assoc_set_same|].
  split; intros Hc; rewrite Hc.
  - split; [reflexivity|].
    destruct (truthy_content _ Hc) as (props & -> & Hprops).
    rewrite assoc_set_other by discriminate. exact Hprops.
  - exists json. split; [exact Hjson|reflexivity].
Qed.

Lemma C3_success_envelope_witness :
  exists fields,
    callbacks (handleMCPRequest sample_server
                 (envelope "tool_call" "get_tags" "r1"
                    (VObject [("result", VObject [("content", VArray [])])])))
    = [MCPResponse fields]
    /\ JS.assoc "request_id" fields = Some (VString "r1")
    /\ JS.assoc "content" fields = Some (VArray []).
Proof.
  destruct (C3_success_envelope sample_server
              (envelope "tool_call" "get_tags" "r1"
                 (VObject [("result", VObject [("content", VArray [])])]))
              "get_tags" get_tags (VObject [("content", VArray [])])
              eq_refl eq_refl eq_refl eq_refl eq_refl eq_refl
              ltac:(discriminate) ltac:(discriminate))
    as (fields & Hcb & Hid & Hpass & _).
  exists fields. split; [exact Hcb|]. split; [exact Hid|].
  exact (proj2 (Hpass eq_refl)).
Defined.

(** A tool that fulfils with undefined or null gets an error envelope:
    the fulfilment handler raises before it reaches the callback, and
    the rejection handler answers. *)
Lemma nullish_result_is_tool_error server request name tool result :
  valid (validateMCPRequest request) = true ->
  JS.get "type" request = VString "tool_call" ->
  JS.get "name" request = VString name ->
  toolRegistry server !! name = Some tool ->
  Validation.valid (validation_result (tool_validate tool) (JS.get "parameters" request)) = true ->
  execute_tool tool (JS.get "parameters" request) = Resolved result ->
  result = VUndefined \/ result = VNull ->
  callbacks (handleMCPRequest server request)
  = [error_response execution "tool_error"
       (Text ("Cannot read properties of " +:+ JS.ToString result +:+ " (reading 'content')"))
       None (JS.get "request_id" request)].
Proof.
  intros Hv Ht Hn Hreg Hok Hrun Hres.
  rewrite (tool_call_executes _ _ _ _ Hv Ht Hn Hreg Hok), Hrun.
  destruct Hres; subst result; reflexivity.
Qed.

(** ** Rejected executions *)

(** What the tool path answers to a rejection with a structured error:
    the kind follows the error's [type], the code and the message are
    those of its [details]. *)
Lemma tool_rejection_structured request type code msg rest :
  tool_on_rejected request
    (Thrown (VObject (("type", VString type)
                      :: ("details", VObject [("code", VString code); ("message", VString msg)])
                      :: rest)))
  = error_response (if String.eqb type "authentication" then validation else execution)
      code (Text msg) None (JS.get "request_id" request).
Proof. reflexivity. Qed.

(** Without [details] the tool path falls back to the code tool_error
    and to the message of an Error, or to 'Unknown error'. *)
Lemma tool_rejection_plain request m :
  tool_on_rejected request (ErrorInstance m [])
  = error_response execution "tool_error" m None (JS.get "request_id" request).
Proof. reflexivity. Qed.

Lemma tool_rejection_primitive request s :
  tool_on_rejected request (Thrown (VString s))
  = error_response execution "tool_error" (Text "Unknown error") None
      (JS.get "request_id" request).
Proof.
  unfold tool_on_rejected, object_with. simpl.
  rewrite !andb_false_r. reflexivity.
Qed.

(** The prompt path answers every rejection alike: it reads neither the
    error's [type] nor its [details]. *)
Lemma prompt_rejection request error :
  exists m,
    prompt_on_rejected request error
    = error_response execution "prompt_error" m None (JS.get "request_id" request).
Proof. unfold prompt_on_rejected. eexists. reflexivity. Qed.

(** C4.  One and the same rejection, flagged as an authentication error
    and carrying [details], is answered validation / invalid_token /
    'Invalid API token' by handleToolCall, and execution / prompt_error
    / 'Unknown error' by handlePromptCall: the prompt path classifies no
    rejection and copies no details. *)
Theorem C4_prompt_rejection_unclassified :
  let error :=
    VObject [("type", VString "authentication");
             ("details", VObject [("code", VString "invalid_token");
                                  ("message", VString "Invalid API token")])] in
  handleMCPRequest sample_server
    (envelope "tool_call" "get_tags" "r1" (VObject [("fail", error)]))
  = [ToolExecuted (VString "get_tags") (VObject [("fail", error)]);
     Callback (error_response validation "invalid_token" (Text "Invalid API token") None
                 (VString "r1"))]
  /\ handleMCPRequest sample_server
       (envelope "prompt_call" "readwise_highlight" "r1" (VObject [("fail", error)]))
     = [PromptExecuted (VString "readwise_highlight") (VObject [("fail", error)]);
        Callback (error_response execution "prompt_error" (Text "Unknown error") None
                    (VString "r1"))].
Proof. split; reflexivity. Qed.

(** ** Malformed requests *)

(** C2, as stated, fails: a request whose request_id is present but
    falsy (the number 0, or the empty string) is malformed, and its error
    envelope carries the sentinel, not the request's own request_id. *)
Lemma C2_counterexample :
  let request id :=
    VObject [("type", VString "tool_call"); ("name", VString "get_tags");
             ("request_id", id); ("parameters", VObject [])] in
  JS.has_property "request_id" (request (VNumber 0)) = true
  /\ handleMCPRequest sample_server (request (VNumber 0))
     = [Callback (error_response transport "invalid_request"
                    (Text "Invalid request_id: must be a non-empty string") None
                    (VString "unknown"))]
  /\ JS.get "request_id" (request (VNumber 0)) <> VString "unknown"
  /\ JS.has_property "request_id" (request (VString "")) = true
  /\ handleMCPRequest sample_server (request (VString ""))
     = [Callback (error_response transport "invalid_request"
                    (Text "Invalid request_id: must be a non-empty string") None
                    (VString "unknown"))]
  /\ JS.get "request_id" (request (VString "")) <> VString "unknown".
Proof.
  repeat apply conj; try reflexivity; simpl; discriminate.
Qed.

(** validateMCPRequest raises on the requests that reach the check of
    the type with a type whose conversion to a string raises, and on no
    other. *)
Lemma validateMCPRequest_raises request :
  Run.validateMCPRequest request = Raises Run.TypeError
  <-> JS.truthy request = true /\ JS.typeof request = "object"
      /\ JS.has_property "type" request = true
      /\ JS.has_property "name" request = true
      /\ JS.has_property "request_id" request = true
      /\ Run.ToString_raises (JS.get "type" request) = true.
Proof.
  unfold Run.validateMCPRequest, Run.ToString.
  destruct (JS.truthy request); [|simpl; split; [discriminate|intros [H _]; discriminate H]].
  destruct (String.eqb (JS.typeof request) "object") eqn:Ho;
    [apply String.eqb_eq in Ho
    |apply String.eqb_neq in Ho; simpl; split;
     [discriminate|intros (_ & H & _); contradiction]].
  simpl.
  destruct (JS.has_property "type" request);
    [|simpl; split; [discriminate|intros (_ & _ & H & _); discriminate H]].
  destruct (JS.has_property "name" request);
    [|simpl; split; [discriminate|intros (_ & _ & _ & H & _); discriminate H]].
  destruct (JS.has_property "request_id" request);
    [|simpl; split; [discriminate|intros (_ & _ & _ & _ & H & _); discriminate H]].
  simpl.
  destruct (negb _ && negb _) eqn:Ht.
  - destruct (Run.ToString_raises _); [tauto|].
    split; [discriminate|intros (_ & _ & _ & _ & _ & H); discriminate H].
  - assert (Hs : Run.ToString_raises (JS.get "type" request) = false).
    { destruct (JS.get "type" request); try discriminate Ht; reflexivity. }
    rewrite Hs.
    split; [|intros (_ & _ & _ & _ & _ & H); discriminate H].
    repeat match goal with
      | |- context [if ?c then _ else _] => destruct c; [discriminate|]
      end.
    discriminate.
Qed.

(** C2, amended.  A request that is not an object, or lacks one of type,
    name, request_id and parameters, or has a type other than tool_call
    and prompt_call, or a name or request_id that is not a string or is
    empty or blank, or parameters of a primitive type, and on which
    validateMCPRequest does not raise, gets one error envelope
    transport / invalid_request: the callback is called once, with that
    envelope, and nothing is raised but what the callback raises.  The
    request_id of the envelope is the request's own request_id when that
    value is truthy, and the sentinel "unknown" otherwise.  (The
    validation raises, by [validateMCPRequest_raises], on a request
    that has type, name and request_id and whose type is an object with
    an own toString property, or an array that holds one.) *)
Theorem C2_malformed_request_rejected (server : Run.ReadwiseMCPServer)
    (callback : Response -> option thrown) (request : value) :
  malformed request ->
  Run.validateMCPRequest request <> Raises Run.TypeError ->
  exists why,
    let response :=
      error_response transport "invalid_request" (Text why) None
        (if JS.truthy (JS.get "request_id" request)
         then JS.get "request_id" request
         else VString "unknown") in
    Run.handleMCPRequest server callback request
    = {| Run.trace := [Callback response];
         Run.end_ := match callback response with
                     | Some error => Run.Threw error
                     | None => Run.Completed
                     end |}.
Proof.
  intros Hbad Hreturns. apply malformed_invalid in Hbad.
  unfold Run.handleMCPRequest.
  destruct (validateMCPRequest_cases request) as [->|[E _]]; [|contradiction].
  rewrite Hbad. simpl. eexists. reflexivity.
Qed.

Lemma C2_malformed_request_rejected_witness :
  malformed (VObject [("type", VString "resource_call"); ("name", VString "get_tags");
                      ("request_id", VString "r9"); ("parameters", VObject [])])
  /\ exists why,
      Run.handleMCPRequest (never_raising sample_server) (fun _ => None)
        (VObject [("type", VString "resource_call"); ("name", VString "get_tags");
                  ("request_id", VString "r9"); ("parameters", VObject [])])
      = {| Run.trace :=
             [Callback (error_response transport "invalid_request" (Text why) None
                          (VString "r9"))];
           Run.end_ := Run.Completed |}.
Proof.
  assert (H : malformed (VObject [("type", VString "resource_call");
                                  ("name", VString "get_tags");
                                  ("request_id", VString "r9");
                                  ("parameters", VObject [])])).
  { apply unknown_type; simpl; discriminate. }
  split; [exact H|].
  exact (C2_malformed_request_rejected (never_raising sample_server) (fun _ => None) _ H
           ltac:(discriminate)).
Defined.

(** The parameters check reads [typeof] only: null and an array pass
    it, and the request reaches the operation. *)
Example null_parameters_accepted :
  valid (validateMCPRequest (envelope "tool_call" "get_tags" "r1" VNull)) = true
  /\ valid (validateMCPRequest (envelope "tool_call" "get_tags" "r1" (VArray []))) = true.
Proof. split; reflexivity. Qed.

(** The raw values of the specification's list are all malformed. *)
Example malformed_values :
  malformed VNull /\ malformed (VString "tool_call") /\ malformed (VArray [])
  /\ malformed (VObject [("type", VString "tool_call")])
  /\ malformed (envelope "tool_call" " " "r1" (VObject []))
  /\ malformed (envelope "tool_call" "get_tags" "r1" (VString "{}")).
Proof.
  repeat apply conj.
  - apply not_an_object. now left.
  - apply not_an_object. right. simpl. discriminate.
  - apply (missing_field _ "type"); [simpl; tauto|reflexivity].
  - apply (missing_field _ "name"); [simpl; tauto|reflexivity].
  - apply bad_name. simpl. intros s [= <-]. reflexivity.
  - apply primitive_parameters. simpl. discriminate.
Qed.

(** ** The token gate *)

Lemma first_unit_Buffer_from c rest :
  first_unit (Buffer_from (String c rest)) = Some (Z.of_N (N_of_ascii c)).
Proof. destruct c as [[] [] [] [] [] [] [] []]; reflexivity. Qed.

Lemma Buffer_from_cons c rest :
  Buffer_from (String c rest)
  = ((if Z.of_N (N_of_ascii c) <? 128 then [Z.of_N (N_of_ascii c)]
      else [Z.lor 192 (Z.shiftr (Z.of_N (N_of_ascii c)) 6);
            Z.lor 128 (Z.land (Z.of_N (N_of_ascii c)) 63)])
     ++ Buffer_from rest)%list.
Proof. simpl. destruct (_ <? 128); reflexivity. Qed.

Lemma Buffer_from_inj s1 s2 : Buffer_from s1 = Buffer_from s2 -> s1 = s2.
Proof.
  revert s2. induction s1 as [|c1 r1 IH]; intros [|c2 r2] H.
  - reflexivity.
  - exfalso. simpl in H. destruct (_ <? 128); discriminate H.
  - exfalso. simpl in H. destruct (_ <? 128); discriminate H.
  - assert (Hc : c1 = c2).
    { pose proof (first_unit_Buffer_from c1 r1) as H1.
      pose proof (first_unit_Buffer_from c2 r2) as H2.
      rewrite H, H2 in H1. injection H1 as H1.
      apply N2Z.inj in H1.
      rewrite <- (ascii_N_embedding c1), <- (ascii_N_embedding c2). now rewrite H1. }
    subst c2. f_equal. apply IH.
    rewrite !Buffer_from_cons in H. now apply app_inv_head in H.
Qed.

Lemma timingSafeEqual_true a b : timingSafeEqual a b = true -> a = b.
Proof.
  revert b. induction a as [|x a IH]; intros [|y b]; simpl; try discriminate.
  - reflexivity.
  - intros H. apply andb_true_iff in H. destruct H as [Hxy Hab].
    apply Z.eqb_eq in Hxy. subst y. f_equal. now apply IH.
Qed.

Lemma gate_rejects_other_token authToken req token :
  method req <> "OPTIONS" ->
  request_token req = Some token ->
  token <> "" ->
  token <> authToken ->
  createAuthMiddleware authToken req
  = respond 403 (VObject [("error", VString "Invalid authentication token.")]).
Proof.
  intros Hm Ht Hne Hdiff. unfold createAuthMiddleware.
  apply String.eqb_neq in Hm, Hne. rewrite Hm, Ht, Hne.
  destruct (negb (length _ =? length _)%nat) eqn:Hlen; [reflexivity|].
  destruct (timingSafeEqual _ _) eqn:Heq; [|reflexivity].
  apply timingSafeEqual_true, Buffer_from_inj in Heq. contradiction.
Qed.

(** C10.  With SERVER_AUTH_TOKEN set, the gate is mounted on /sse,
    /messages and /mcp.  It lets every OPTIONS request through whatever
    it carries; a request of another method without a token (no Bearer
    token in the Authorization header and no string [token] in the
    query, or empty ones) gets 401; a request of another method whose
    token is not the configured one, be it of another length or of the
    same, gets 403. *)
Theorem C10_auth_gate (SERVER_AUTH_TOKEN : option string) (token : string) :
  authToken SERVER_AUTH_TOKEN = Some token ->
  exists gate,
    auth_mount SERVER_AUTH_TOKEN = Some (["/sse"; "/messages"; "/mcp"], gate)
    /\ (forall req, method req = "OPTIONS" -> gate req = next)
    /\ (forall req,
           method req <> "OPTIONS" ->
           request_token req = None \/ request_token req = Some "" ->
           exists body, gate req = respond 401 body)
    /\ (forall req t,
           method req <> "OPTIONS" ->
           request_token req = Some t ->
           t <> "" ->
           t <> token ->
           exists body, gate req = respond 403 body).
Proof.
  intros Hset. exists (createAuthMiddleware token).
  split; [unfold auth_mount; now rewrite Hset|].
  split; [|split].
  - intros req Hm. unfold createAuthMiddleware. now rewrite Hm.
  - intros req Hm Hno. unfold createAuthMiddleware.
    apply String.eqb_neq in Hm. rewrite Hm.
    destruct Hno as [-> | ->]; eexists; reflexivity.
  - intros req t Hm Ht Hne Hdiff. eexists.
    apply (gate_rejects_other_token token req t); assumption.
Qed.

Lemma C10_auth_gate_witness :
  exists gate,
    auth_mount (Some "s3cret") = Some (["/sse"; "/messages"; "/mcp"], gate)
    /\ gate {| method := "OPTIONS"; authorization := None; query_token := VUndefined |} = next
    /\ (exists body,
           gate {| method := "GET"; authorization := Some "Basic s3cret";
                   query_token := VUndefined |} = respond 401 body)
    /\ (exists body,
           gate {| method := "POST"; authorization := Some "Bearer s3cre";
                   query_token := VString "s3cret" |} = respond 403 body)
    /\ (exists body,
           gate {| method := "POST"; authorization := None;
                   query_token := VString "s3creT" |} = respond 403 body).
Proof.
  destruct (C10_auth_gate (Some "s3cret") "s3cret" eq_refl) as (gate & Hm & Ho & Hn & Hd).
  exists gate. split; [exact Hm|]. split; [|split; [|split]].
  - apply Ho. reflexivity.
  - apply Hn; [discriminate|left; reflexivity].
  - apply (Hd _ "s3cre"); [discriminate|reflexivity|discriminate|discriminate].
  - apply (Hd _ "s3creT"); [discriminate|reflexivity|discriminate|discriminate].
Defined.

Example gate_accepts_token :
  createAuthMiddleware "s3cret"
    {| method := "GET"; authorization := Some "Bearer s3cret"; query_token := VUndefined |}
  = next.
Proof. reflexivity. Qed.

(** ** The stdio adapter *)

(** End-to-end scenario 1 of the specification: one request on one
    line. *)
Example stdin_one_line :
  on_stdin_data empty_server
    (JSON.text "{'type':'tool_call','name':'get_tags','request_id':'r1','parameters':{}}"
     +:+ String (ascii_of_N 10) "")
  = Some [Dispatched (envelope "tool_call" "get_tags" "r1" (VObject []));
          Written (error_response transport "tool_not_found"
                     (Text "Tool not found: get_tags") None (VString "r1"))].
Proof. vm_compute. reflexivity. Qed.




(** The three cases of C7 are all there is, but for a chunk whose JSON
    text is outside the model. *)
Lemma stdin_chunk_cases server data :
  on_stdin_data server data = None <-> JSON.parse (JS.trim data) = Unsupported /\ JS.trim data <> "".
Proof.
  unfold on_stdin_data. destruct (String.eqb (JS.trim data) "") eqn:E.
  - apply String.eqb_eq in E. split; [discriminate|]. intros [_ H]. contradiction.
  - apply String.eqb_neq in E. pose proof (parse_fuelled (JS.trim data)) as Hf.
    destruct (JSON.parse (JS.trim data)); split; try discriminate; try contradiction;
      try (intros [H _]; discriminate H); auto.
Qed.

(** A request whose line arrives in two chunks is not put together
    again: each part fails to parse. *)
Example stdin_split_line :
  on_stdin sample_server
    [JSON.text "{'type':'tool_call','name':'get_tags',";
     JSON.text "'request_id':'r1','parameters':{}}" +:+ String (ascii_of_N 10) ""]
  = Some [Written (parse_error_response (JSON.text "{'type':'tool_call','name':'get_tags',"));
          Written (parse_error_response (JSON.text "'request_id':'r1','parameters':{}}"))].
Proof. vm_compute. reflexivity. Qed.

(** ** POST /messages *)

(** C8, as stated, fails: a sessionId that is supplied but empty, as in
    [?sessionId=], names no stored session, and the route answers 400
    missing_session_id, not 404. *)
Lemma C8_counterexample :
  VString "" <> VUndefined
  /\ Map_get (sse_open "sse-1-abc" {| stream := 1; has_handlePostMessage := true |} ∅)
       (VString "") = None
  /\ post_messages (sse_open "sse-1-abc" {| stream := 1; has_handlePostMessage := true |} ∅)
       (VString "") (VObject [])
     = Reply 400 (error_body "validation" "missing_session_id"
                    "Missing required query parameter: sessionId").
Proof. repeat apply conj; [discriminate|reflexivity|reflexivity]. Qed.

(** C8, amended.  When the sessionId query parameter is absent or empty
    the response is 400 with validation / missing_session_id; when it is
    given and not empty but the session store has no session of that
    identifier, the response is 404 with transport / session_not_found;
    when it names a stored session, the message goes to the
    handlePostMessage of that session's transport. *)
Theorem C8_post_messages (sseTransports : gmap string SSEServerTransport)
    (sessionId body : value) :
  (JS.truthy sessionId = false ->
   post_messages sseTransports sessionId body
   = Reply 400 (error_body "validation" "missing_session_id"
                  "Missing required query parameter: sessionId"))
  /\ (JS.truthy sessionId = true ->
      Map_get sseTransports sessionId = None ->
      exists message,
        post_messages sseTransports sessionId body
        = Reply 404 (error_body "transport" "session_not_found" message))
  /\ (forall id session,
         sessionId = VString id ->
         id <> "" ->
         sseTransports !! id = Some session ->
         has_handlePostMessage session = true ->
         post_messages sseTransports sessionId body = HandlePostMessage session body).
Proof.
  unfold post_messages. split; [|split].
  - intros ->. reflexivity.
  - intros -> ->. eexists. reflexivity.
  - intros id session -> Hne Hget Hfun. simpl.
    apply String.eqb_neq in Hne. rewrite Hne, Hget, Hfun. reflexivity.
Qed.

Lemma C8_post_messages_witness :
  let store := sse_open "sse-1-abc" {| stream := 1; has_handlePostMessage := true |} ∅ in
  post_messages store VUndefined (VObject [])
  = Reply 400 (error_body "validation" "missing_session_id"
                 "Missing required query parameter: sessionId")
  /\ (exists message,
         post_messages store (VString "sse-2-xyz") (VObject [])
         = Reply 404 (error_body "transport" "session_not_found" message))
  /\ post_messages store (VString "sse-1-abc") (VObject [])
     = HandlePostMessage {| stream := 1; has_handlePostMessage := true |} (VObject []).
Proof.
  cbv zeta. split; [|split].
  - exact (proj1 (C8_post_messages _ VUndefined (VObject [])) eq_refl).
  - exact (proj1 (proj2 (C8_post_messages
                           (sse_open "sse-1-abc"
                              {| stream := 1; has_handlePostMessage := true |} ∅)
                           (VString "sse-2-xyz") (VObject [])))
             eq_refl eq_refl).
  - apply (proj2 (proj2 (C8_post_messages
                           (sse_open "sse-1-abc"
                              {| stream := 1; has_handlePostMessage := true |} ∅)
                           (VString "sse-1-abc") (VObject [])))
             "sse-1-abc"); [reflexivity|discriminate|reflexivity|reflexivity].
Defined.

(** A message for a session goes to the transport stored on first
    contact, whatever other sessions come and go; after the session is
    closed it gets 404. *)
Lemma session_correlation sseTransports id session body :
  id <> "" ->
  has_handlePostMessage session = true ->
  post_messages (sse_open id session sseTransports) (VString id) body
  = HandlePostMessage session body.
Proof.
  intros Hne Hfun. unfold post_messages, sse_open. simpl.
  apply String.eqb_neq in Hne. rewrite Hne, lookup_insert_eq, Hfun. reflexivity.
Qed.

Lemma session_untouched sseTransports id id' session body :
  id <> id' ->
  post_messages (sse_open id session sseTransports) (VString id') body
  = post_messages sseTransports (VString id') body
  /\ post_messages (sse_close id sseTransports) (VString id') body
     = post_messages sseTransports (VString id') body.
Proof.
  intros Hne. unfold post_messages, sse_open, sse_close. simpl.
  rewrite lookup_insert_ne, lookup_delete_ne by assumption. split; reflexivity.
Qed.

Lemma session_closed sseTransports id body :
  id <> "" ->
  post_messages (sse_close id sseTransports) (VString id) body
  = Reply 404 (error_body "transport" "session_not_found"
                 ("No active SSE connection found for sessionId: " +:+ id)).
Proof.
  intros Hne. unfold post_messages, sse_close. simpl.
  apply String.eqb_neq in Hne. rewrite Hne, lookup_delete_eq. reflexivity.
Qed.

(** * Further properties of the dispatcher *)

Lemma malformed_not_well_formed request : malformed request -> ~ well_formed request.
Proof.
  intros Hbad Hwf. apply malformed_invalid in Hbad.
  destruct Hwf as [[Ht Ho] Hf Hty Hn Hid Hp].
  unfold validateMCPRequest in Hbad.
  rewrite Ht, Ho in Hbad. simpl in Hbad.
  rewrite !Hf in Hbad by (simpl; tauto). simpl in Hbad.
  destruct Hn as (name & Hname & Hne), Hid as (id & Hidv & Hidne).
  rewrite Hname, Hidv, Hp in Hbad. simpl in Hbad.
  apply String.eqb_neq in Hne, Hidne. rewrite Hne, Hidne in Hbad.
  destruct Hty as [Hty|Hty]; rewrite Hty in Hbad; discriminate Hbad.
Qed.

(** X1.  validateMCPRequest accepts exactly the objects that have the
    four fields, a type that is one of the two strings, a name and a
    request_id that are strings with more than white space in them, and
    parameters whose typeof is "object"; what else the object holds and
    in which order does not matter. *)
Theorem X1_validate_accepts_exactly (request : value) :
  valid (validateMCPRequest request) = true <-> well_formed request.
Proof.
  split; [apply valid_well_formed|].
  intros Hwf. destruct (valid (validateMCPRequest request)) eqn:Hv; [reflexivity|].
  exfalso. apply invalid_malformed in Hv.
  exact (malformed_not_well_formed _ Hv Hwf).
Qed.

Lemma then_catch_request_id request promise onRejected :
  (forall e, response_request_id (onRejected e) = Some (JS.get "request_id" request)) ->
  forall response,
    In response (callbacks (then_catch promise (on_fulfilled request) onRejected)) ->
    response_request_id response = Some (JS.get "request_id" request).
Proof.
  intros Hrej response. unfold then_catch.
  destruct promise as [result|e]; simpl.
  - destruct (on_fulfilled request result) as [ok|e] eqn:Hf; simpl.
    + intros [<-|[]]. unfold on_fulfilled in Hf.
      destruct result; try discriminate Hf; injection Hf as <-;
        cbn [response_request_id]; first [apply assoc_set_same|reflexivity].
    + intros [<-|[]]. apply Hrej.
  - intros [<-|[]]. apply Hrej.
Qed.

Lemma handleToolCall_request_id server request response :
  In response (callbacks (handleToolCall server request)) ->
  response_request_id response = Some (JS.get "request_id" request).
Proof.
  unfold handleToolCall.
  destruct (registry_get _ _) as [tool|]; [|simpl; intros [<-|[]]; reflexivity].
  destruct (negb _); [simpl; intros [<-|[]]; reflexivity|].
  simpl. apply then_catch_request_id. reflexivity.
Qed.

Lemma handlePromptCall_request_id server request response :
  In response (callbacks (handlePromptCall server request)) ->
  response_request_id response = Some (JS.get "request_id" request).
Proof.
  unfold handlePromptCall.
  destruct (registry_get _ _) as [prompt|]; [|simpl; intros [<-|[]]; reflexivity].
  destruct (negb _); [simpl; intros [<-|[]]; reflexivity|].
  simpl. apply then_catch_request_id. reflexivity.
Qed.

(** X2.  Every envelope the dispatcher hands to the callback for a
    request that passed validateMCPRequest carries that request's
    request_id: the error envelopes of an unknown name, of rejected
    parameters and of a failed execution, and the success envelope, in
    which a request_id of the result itself is overwritten. *)
Theorem X2_request_id_echoed (server : ReadwiseMCPServer) (request : value)
    (response : Response) :
  valid (validateMCPRequest request) = true ->
  In response (callbacks (handleMCPRequest server request)) ->
  response_request_id response = Some (JS.get "request_id" request).
Proof.
  intros Hv. pose proof (valid_well_formed _ Hv) as Hwf.
  destruct (wf_type _ Hwf) as [Ht|Ht].
  - rewrite (routed_tool_call _ _ Hv Ht). apply handleToolCall_request_id.
  - rewrite (routed_prompt_call _ _ Hv Ht). apply handlePromptCall_request_id.
Qed.

Lemma X2_request_id_echoed_witness :
  response_request_id
    (MCPResponse [("content", VArray []); ("request_id", VString "r1")])
  = Some (VString "r1").
Proof.
  apply (X2_request_id_echoed sample_server
           (envelope "tool_call" "get_tags" "r1"
              (VObject [("result", VObject [("content", VArray []);
                                            ("request_id", VString "forged")])]))).
  - reflexivity.
  - vm_compute. left. reflexivity.
Defined.

Lemma then_catch_no_execution promise onFulfilled onRejected e :
  In e (then_catch promise onFulfilled onRejected) -> exists response, e = Callback response.
Proof.
  destruct (then_catch_one promise onFulfilled onRejected) as [r ->].
  intros [<-|[]]. now exists r.
Qed.



(** ** The tools/call handler of the SDK server *)

(** X4.  The tools/call handler of the SDK server does not consult a
    tool's validator and does not use its executeAsMCP: for parameters
    that the validator rejects it still executes the tool, once, and
    returns the promise of [execute], where handleMCPRequest for the same
    name and parameters answers invalid_parameters and executes
    nothing. *)
Theorem X4_sdk_call_skips_validation (server : ReadwiseMCPServer) (name request_id : string)
    (parameters : value) (tool : BaseMCPTool) (validate : value -> Validation.ValidationResult) :
  toolRegistry server !! name = Some tool ->
  tool_validate tool = Some validate ->
  Validation.valid (validate parameters) = false ->
  JS.truthy parameters = true ->
  valid (validateMCPRequest (envelope "tool_call" name request_id parameters)) = true ->
  sdk_call_tool server (VString name) parameters
  = ([ToolExecuted (VString name) parameters], tool_execute tool parameters)
  /\ handleMCPRequest server (envelope "tool_call" name request_id parameters)
     = [Callback (error_response validation "invalid_parameters" (Text "Invalid parameters")
                    (Some (map format_error (Validation.errors (validate parameters))))
                    (VString request_id))].
Proof.
  intros Hreg Hval Hbad Htruthy Hv. split.
  - unfold sdk_call_tool. simpl. rewrite Hreg, Htruthy. reflexivity.
  - rewrite (routed_tool_call _ _ Hv eq_refl). unfold handleToolCall. simpl.
    rewrite Hreg. unfold validation_result. rewrite Hval, Hbad. reflexivity.
Qed.

Lemma X4_sdk_call_skips_validation_witness :
  sdk_call_tool sample_server (VString "search_highlights") (VObject [("limit", VNumber 5)])
  = ([ToolExecuted (VString "search_highlights") (VObject [("limit", VNumber 5)])],
     Resolved VUndefined)
  /\ handleMCPRequest sample_server
       (envelope "tool_call" "search_highlights" "r1" (VObject [("limit", VNumber 5)]))
     = [Callback (error_response validation "invalid_parameters" (Text "Invalid parameters")
                    (Some ["query: Search query is required"]) (VString "r1"))].
Proof.
  exact (X4_sdk_call_skips_validation sample_server "search_highlights" "r1"
           (VObject [("limit", VNumber 5)]) search_highlights require_query
           eq_refl eq_refl eq_refl eq_refl eq_refl).
Defined.

(** An unknown name makes the SDK handler reject, and missing arguments
    are replaced by an empty object. *)
Example sdk_call_edges :
  sdk_call_tool sample_server (VString "get_books") (VObject [])
  = ([], Rejected (ErrorInstance (Text "Tool not found: get_books") []))
  /\ fst (sdk_call_tool sample_server (VString "get_tags") VUndefined)
     = [ToolExecuted (VString "get_tags") (VObject [])].
Proof. split; reflexivity. Qed.

(** ** The token gate: who gets through *)

Lemma timingSafeEqual_refl a : timingSafeEqual a a = true.
Proof. induction a as [|x a IH]; simpl; [reflexivity|]. now rewrite Z.eqb_refl. Qed.

(** X5.  With a token configured, a request of a method other than
    OPTIONS gets through the gate exactly when the token it carries (the
    Bearer token of the Authorization header, or else the token of the
    query) is the configured one. *)
Theorem X5_gate_passes_exactly_configured (authToken : string) (req : Request) :
  authToken <> "" ->
  method req <> "OPTIONS" ->
  createAuthMiddleware authToken req = next <-> request_token req = Some authToken.
Proof.
  intros Hset Hm. unfold createAuthMiddleware.
  apply String.eqb_neq in Hm. rewrite Hm. split.
  - destruct (request_token req) as [token|]; [|discriminate].
    destruct (String.eqb token ""); [discriminate|].
    destruct (negb (length _ =? length _)%nat); [discriminate|].
    destruct (timingSafeEqual _ _) eqn:Heq; [|discriminate].
    intros _. apply timingSafeEqual_true, Buffer_from_inj in Heq. now subst.
  - intros ->. apply String.eqb_neq in Hset. rewrite Hset.
    rewrite Nat.eqb_refl, timingSafeEqual_refl. reflexivity.
Qed.

Lemma X5_gate_passes_exactly_configured_witness :
  createAuthMiddleware "s3cret"
    {| method := "POST"; authorization := Some "Bearer s3cret"; query_token := VString "other" |}
  = next
  <-> request_token
        {| method := "POST"; authorization := Some "Bearer s3cret";
           query_token := VString "other" |}
      = Some "s3cret".
Proof.
  apply (X5_gate_passes_exactly_configured "s3cret"
           {| method := "POST"; authorization := Some "Bearer s3cret";
              query_token := VString "other" |}); discriminate.
Defined.

(** The Bearer scheme is matched as it is written: another spelling of
    it leaves the header aside, and the query token decides. *)
Example gate_scheme_case :
  createAuthMiddleware "s3cret"
    {| method := "GET"; authorization := Some "bearer s3cret"; query_token := VUndefined |}
  = respond 401 (VObject [("error", VString "Authentication required. Provide token via Authorization: Bearer <token> header or ?token=<token> query parameter.")]).
Proof. reflexivity. Qed.

(** ** The stdio adapter: white space and line counts *)

Lemma trimStart_blank_app pad s :
  JS.trimStart pad = "" -> JS.trimStart (pad +:+ s) = JS.trimStart s.
Proof.
  induction pad as [|c pad IH]; simpl; [reflexivity|].
  destruct (JS.is_whitespace c); [exact IH|discriminate].
Qed.

Lemma trimEnd_blank pad : JS.trimStart pad = "" -> JS.trimEnd pad = "".
Proof.
  induction pad as [|c pad IH]; simpl; [reflexivity|].
  destruct (JS.is_whitespace c); [|discriminate].
  intros H. now rewrite (IH H).
Qed.

Lemma trimEnd_app_blank s pad :
  JS.trimStart pad = "" -> JS.trimEnd (s +:+ pad) = JS.trimEnd s.
Proof.
  intros Hpad. induction s as [|c s IH]; simpl; [now apply trimEnd_blank|].
  now rewrite IH.
Qed.

Lemma trimStart_app s pad :
  JS.trimStart s <> "" -> JS.trimStart (s +:+ pad) = JS.trimStart s +:+ pad.
Proof.
  induction s as [|c s IH]; simpl; [contradiction|].
  destruct (JS.is_whitespace c); [exact IH|reflexivity].
Qed.

Lemma trim_padded pad1 s pad2 :
  JS.trimStart pad1 = "" -> JS.trimStart pad2 = "" ->
  JS.trim (pad1 +:+ s +:+ pad2) = JS.trim s.
Proof.
  intros H1 H2. unfold JS.trim. rewrite (trimStart_blank_app _ _ H1).
  destruct (String.eqb (JS.trimStart s) "") eqn:E.
  - apply String.eqb_eq in E. rewrite (trimStart_blank_app _ _ E), H2, E. reflexivity.
  - apply String.eqb_neq in E. rewrite (trimStart_app _ _ E).
    now apply trimEnd_app_blank.
Qed.

(** X6.  White space around a chunk does not count: a chunk with any
    run of blanks, tabs and line ends (LF or CR LF) before and after it
    is handled as the chunk itself is. *)
Theorem X6_stdin_padding_ignored (server : ReadwiseMCPServer) (pad1 data pad2 : string) :
  JS.trimStart pad1 = "" ->
  JS.trimStart pad2 = "" ->
  on_stdin_data server (pad1 +:+ data +:+ pad2) = on_stdin_data server data.
Proof.
  intros H1 H2. unfold on_stdin_data. now rewrite (trim_padded _ _ _ H1 H2).
Qed.

Lemma X6_stdin_padding_ignored_witness :
  on_stdin_data sample_server
    ("  " +:+ "[1]" +:+ String (ascii_of_N 13) (String (ascii_of_N 10) ""))
  = on_stdin_data sample_server "[1]".
Proof.
  apply (X6_stdin_padding_ignored sample_server "  " "[1]"
           (String (ascii_of_N 13) (String (ascii_of_N 10) ""))); reflexivity.
Defined.








(** ** Sessions of the event-stream transport *)

Lemma sse_session_id_not_empty now random : sse_session_id now random <> "".
Proof. unfold sse_session_id. simpl. discriminate. Qed.

(** X8.  A client that opened a stream with GET /sse and posts to
    /messages with the session identifier it was given reaches the
    transport of its own stream, whatever the clock and the digits drawn
    for the identifier, whatever sessions were there before, and also
    when starting or connecting the transport failed. *)
Theorem X8_sse_session_round_trip (now : Z) (random : string) (session : SSEServerTransport)
    (connected : bool) (state : sse_state) (body : value) :
  has_handlePostMessage session = true ->
  post_messages (sseTransports (get_sse now random session connected state))
    (VString (sse_session_id now random)) body
  = HandlePostMessage session body.
Proof.
  intros Hfun. unfold get_sse. cbn [sseTransports].
  apply session_correlation; [apply sse_session_id_not_empty|exact Hfun].
Qed.

Lemma X8_sse_session_round_trip_witness :
  post_messages
    (sseTransports (get_sse 1700000000000 "k3j9x0q1z" {| stream := 7; has_handlePostMessage := true |}
                      true {| sseTransports := ∅; watched := ∅ |}))
    (VString "sse-1700000000000-k3j9x0q1z") (VObject [])
  = HandlePostMessage {| stream := 7; has_handlePostMessage := true |} (VObject []).
Proof.
  exact (X8_sse_session_round_trip 1700000000000 "k3j9x0q1z"
           {| stream := 7; has_handlePostMessage := true |} true
           {| sseTransports := ∅; watched := ∅ |} (VObject []) eq_refl).
Defined.

(** X9.  When the connection of a stream that was connected closes (or
    its transport reports an error or its close), a later message for
    that session gets 404 session_not_found, and messages for every
    other session are answered as they were before that stream was
    opened. *)
Theorem X9_sse_disconnect (now : Z) (random : string) (session : SSEServerTransport)
    (state : sse_state) (other : string) (body : value) :
  other <> sse_session_id now random ->
  let closed :=
    sse_disconnect (sse_session_id now random) (get_sse now random session true state) in
  post_messages (sseTransports closed) (VString (sse_session_id now random)) body
  = Reply 404 (error_body "transport" "session_not_found"
                 ("No active SSE connection found for sessionId: "
                  +:+ sse_session_id now random))
  /\ post_messages (sseTransports closed) (VString other) body
     = post_messages (sseTransports state) (VString other) body.
Proof.
  intros Hne closed. subst closed. unfold sse_disconnect, get_sse.
  cbn [watched sseTransports].
  rewrite bool_decide_eq_true_2 by set_solver. cbn [sseTransports].
  split.
  - apply session_closed, sse_session_id_not_empty.
  - unfold post_messages, sse_close, sse_open. simpl.
    rewrite lookup_delete_ne, lookup_insert_ne by congruence. reflexivity.
Qed.

Lemma X9_sse_disconnect_witness :
  let state :=
    {| sseTransports := {[ "sse-1-a" := {| stream := 1; has_handlePostMessage := true |} ]};
       watched := {[ "sse-1-a" ]} |} in
  let closed :=
    sse_disconnect (sse_session_id 2 "b")
      (get_sse 2 "b" {| stream := 2; has_handlePostMessage := true |} true state) in
  post_messages (sseTransports closed) (VString "sse-2-b") (VObject [])
  = Reply 404 (error_body "transport" "session_not_found"
                 "No active SSE connection found for sessionId: sse-2-b")
  /\ post_messages (sseTransports closed) (VString "sse-1-a") (VObject [])
     = HandlePostMessage {| stream := 1; has_handlePostMessage := true |} (VObject []).
Proof.
  cbv zeta.
  destruct (X9_sse_disconnect 2 "b" {| stream := 2; has_handlePostMessage := true |}
              {| sseTransports :=
                   {[ "sse-1-a" := {| stream := 1; has_handlePostMessage := true |} ]};
                 watched := {[ "sse-1-a" ]} |}
              "sse-1-a" (VObject []) ltac:(discriminate)) as [Hgone Hkept].
  split; [exact Hgone|]. rewrite Hkept. reflexivity.
Defined.

(** X10.  A session whose transport failed to start or to connect is
    stored all the same, and the handlers that would delete it are not
    set: the close of its connection leaves the store as it is, and the
    session stays reachable. *)
Theorem X10_sse_failed_connect_stays (now : Z) (random : string)
    (session : SSEServerTransport) (state : sse_state) :
  sse_session_id now random ∉ watched state ->
  sse_disconnect (sse_session_id now random) (get_sse now random session false state)
  = get_sse now random session false state
  /\ sseTransports (get_sse now random session false state) !! sse_session_id now random
     = Some session.
Proof.
  intros Hfresh. unfold sse_disconnect, get_sse. cbn [watched sseTransports].
  rewrite bool_decide_eq_false_2 by exact Hfresh.
  split; [reflexivity|]. unfold sse_open. apply lookup_insert_eq.
Qed.

Lemma X10_sse_failed_connect_stays_witness :
  sse_disconnect (sse_session_id 5 "q")
    (get_sse 5 "q" {| stream := 3; has_handlePostMessage := true |} false
       {| sseTransports := ∅; watched := ∅ |})
  = get_sse 5 "q" {| stream := 3; has_handlePostMessage := true |} false
      {| sseTransports := ∅; watched := ∅ |}
  /\ sseTransports (get_sse 5 "q" {| stream := 3; has_handlePostMessage := true |} false
                      {| sseTransports := ∅; watched := ∅ |}) !! sse_session_id 5 "q"
     = Some {| stream := 3; has_handlePostMessage := true |}.
Proof.
  apply (X10_sse_failed_connect_stays 5 "q" {| stream := 3; has_handlePostMessage := true |}
           {| sseTransports := ∅; watched := ∅ |}).
  set_solver.
Defined.

(** ** Sessions of the HTTP-stream transport *)

(** X11.  A first request to /mcp that names no stored session and whose
    new transport shows a session identifier gets that identifier in the
    mcp-session-id response header; a follow-up that sends it back is
    handled by the same transport and leaves the store as it is, without
    a new transport being connected. *)
Theorem X11_mcp_session_round_trip
    (store : gmap string StreamableHTTPServerTransport) (header : option string)
    (fresh later : StreamableHTTPServerTransport) (id : string) (connect : option thrown) :
  (forall h, header = Some h -> store !! h = None) ->
  sessionId fresh = Some id ->
  id <> "" ->
  let first := mcp_route true store header fresh None in
  session_header first = Some id
  /\ result first = HandleRequest fresh
  /\ mcp_route true (streamableTransports first) (Some id) later connect
     = {| streamableTransports := streamableTransports first;
          session_header := None;
          result := HandleRequest fresh |}.
Proof.
  intros Hunknown Hid Hne first.
  assert (Hfirst : first = {| streamableTransports := <[id := fresh]> store;
                              session_header := Some id;
                              result := HandleRequest fresh |}).
  { subst first. unfold mcp_route. simpl.
    assert (Hreuse : match header with
                     | Some h => if String.eqb h "" then None else store !! h
                     | None => None
                     end = None).
    { destruct header as [h|]; [|reflexivity].
      destruct (String.eqb h ""); [reflexivity|]. now apply Hunknown. }
    rewrite Hreuse, Hid. apply String.eqb_neq in Hne. now rewrite Hne. }
  rewrite Hfirst. cbn [session_header result streamableTransports].
  repeat split. unfold mcp_route. simpl.
  apply String.eqb_neq in Hne. rewrite Hne, lookup_insert_eq. reflexivity.
Qed.

Lemma X11_mcp_session_round_trip_witness :
  let fresh := {| instance := 1; sessionId := Some "0b9f" |} in
  let first := mcp_route true ∅ None fresh None in
  session_header first = Some "0b9f"
  /\ result first = HandleRequest fresh
  /\ mcp_route true (streamableTransports first) (Some "0b9f")
       {| instance := 2; sessionId := Some "77aa" |} None
     = {| streamableTransports := streamableTransports first;
          session_header := None;
          result := HandleRequest fresh |}.
Proof.
  apply (X11_mcp_session_round_trip ∅ None {| instance := 1; sessionId := Some "0b9f" |}
           {| instance := 2; sessionId := Some "77aa" |} "0b9f" None).
  - intros h Hh. discriminate Hh.
  - reflexivity.
  - discriminate.
Defined.

(** X12.  The /mcp route never takes a session out of its store:
    whatever the request and however it ends, every session identifier
    that was stored before is stored after, and at most one is added. *)
Theorem X12_mcp_store_only_grows (mcpServer : bool)
    (store : gmap string StreamableHTTPServerTransport) (header : option string)
    (fresh : StreamableHTTPServerTransport) (connect : option thrown) :
  dom store ⊆ dom (streamableTransports (mcp_route mcpServer store header fresh connect))
  /\ (size (streamableTransports (mcp_route mcpServer store header fresh connect))
      <= S (size store))%nat.
Proof.
  assert (Hsame : dom store ⊆ dom store /\ (size store <= S (size store))%nat).
  { split; [reflexivity|lia]. }
  unfold mcp_route.
  destruct mcpServer; simpl; [|exact Hsame].
  destruct (match header with
            | Some id => if String.eqb id "" then None else store !! id
            | None => None
            end); [exact Hsame|].
  destruct connect; [exact Hsame|].
  destruct (sessionId fresh) as [new|]; [|exact Hsame].
  destruct (String.eqb new ""); [exact Hsame|]. simpl. split.
  - rewrite dom_insert_L. apply union_subseteq_r.
  - destruct (store !! new) eqn:Hnew.
    + rewrite map_size_insert_Some by eauto. lia.
    + rewrite map_size_insert_None by exact Hnew. lia.
Qed.

(** X13.  A request to /mcp that names a session the store does not have
    (or names none) is not refused: once the server is set up and the
    new transport connects, the request is handled by that new
    transport. *)
Theorem X13_mcp_unknown_session_served
    (store : gmap string StreamableHTTPServerTransport) (header : option string)
    (fresh : StreamableHTTPServerTransport) :
  (forall h, header = Some h -> store !! h = None) ->
  result (mcp_route true store header fresh None) = HandleRequest fresh.
Proof.
  intros Hunknown. unfold mcp_route. simpl.
  assert (Hreuse : match header with
                   | Some h => if String.eqb h "" then None else store !! h
                   | None => None
                   end = None).
  { destruct header as [h|]; [|reflexivity].
    destruct (String.eqb h ""); [reflexivity|]. now apply Hunknown. }
  rewrite Hreuse. destruct (sessionId fresh) as [new|]; [|reflexivity].
  destruct (String.eqb new ""); reflexivity.
Qed.

Lemma X13_mcp_unknown_session_served_witness :
  result (mcp_route true {[ "0b9f" := {| instance := 1; sessionId := Some "0b9f" |} ]}
            (Some "gone") {| instance := 2; sessionId := None |} None)
  = HandleRequest {| instance := 2; sessionId := None |}.
Proof.
  apply (X13_mcp_unknown_session_served
           {[ "0b9f" := {| instance := 1; sessionId := Some "0b9f" |} ]}
           (Some "gone") {| instance := 2; sessionId := None |}).
  intros h [= <-]. reflexivity.
Defined.

(** ** The listening port *)

Example parseInt_examples :
  parseInt "8080" = Number 8080 /\ parseInt " 3000px" = Number 3000
  /\ parseInt "-1" = Number (-1) /\ parseInt "" = NaN /\ parseInt "port" = NaN
  /\ parseInt "+ 5" = NaN /\ parseInt "80.5" = Number 80.
Proof. repeat split. Qed.

Lemma valid_port_range p :
  valid_port p = true <-> exists q, p = Finite q /\ (0 <= q < 65536)%Q.
Proof.
  destruct p as [q| |negative]; simpl.
  - rewrite andb_true_iff, negb_true_iff, Qle_bool_iff, <- not_true_iff_false, Qle_bool_iff.
    split.
    + intros [H0 H1]. exists q. split; [reflexivity|].
      split; [exact H0|apply Qnot_le_lt, H1].
    + intros (q' & [= <-] & H0 & H1). split; [exact H0|apply Qlt_not_le, H1].
  - split; [discriminate|]. intros (q & H & _). discriminate H.
  - split; [discriminate|]. intros (q & H & _). discriminate H.
Qed.

Lemma is_8081 (q : Qc) : Qeq_bool q 8081 = true <-> q = Q2Qc 8081.
Proof.
  rewrite Qeq_bool_iff. split.
  - intros H. apply Qc_is_canon. rewrite H. reflexivity.
  - intros ->. reflexivity.
Qed.

Lemma port_middleware_valid port PORT : valid_port (port_middleware port PORT) = true.
Proof.
  unfold port_middleware.
  assert (H : forall o : option number,
             valid_port match o with
                        | Some p => if valid_port p then p else Number 8081
                        | None => Number 8081
                        end = true).
  { intros [p|]; [|reflexivity]. destruct (valid_port p) eqn:E; [exact E|reflexivity]. }
  apply H.
Qed.

(** X14.  Whatever --port and the PORT variable hold (a number out of
    range, a fraction, NaN, an infinity, text that is no number,
    nothing), the port that main settles on is a number from 0 up to,
    but not including, 65536, and neither NaN nor infinite.  It need not
    be an integer: the fraction 80.5 given as --port is kept as it
    is. *)
Theorem X14_port_always_valid (port : option number) (PORT : option string) :
  (exists q, port_middleware port PORT = Finite q /\ (0 <= q < 65536)%Q)
  /\ port_middleware (Some (Number 80.5)) PORT = Number 80.5.
Proof.
  split.
  - apply valid_port_range, port_middleware_valid.
  - unfold port_middleware. destruct PORT as [env|]; reflexivity.
Qed.

(** X15.  A --port other than 8081 that is in range is kept whatever
    PORT says; with --port 8081, be it given or the default, a PORT
    that starts with an integer in range takes its place; and when
    --port is 8081 or no port in range and PORT gives no port in range
    either, the port is 8081. *)
Theorem X15_port_precedence (port : option number) (PORT : option string) :
  (forall q, port = Some (Finite q) -> q <> Q2Qc 8081 -> (0 <= q < 65536)%Q ->
             port_middleware port PORT = Finite q)
  /\ (forall env p, port = Some (Number 8081) -> PORT = Some env ->
                    parseInt env = Finite p -> (0 <= p < 65536)%Q ->
                    port_middleware port PORT = Finite p)
  /\ ((forall q, port = Some (Finite q) -> q = Q2Qc 8081 \/ ~ (0 <= q < 65536)%Q) ->
      (forall env, PORT = Some env -> valid_port (parseInt env) = false) ->
      port_middleware port PORT = Number 8081).
Proof.
  split; [|split].
  - intros q -> Hne Hr. unfold port_middleware.
    assert (Hq : Qeq_bool q 8081 = false).
    { apply not_true_iff_false. rewrite is_8081. exact Hne. }
    assert (Hv : valid_port (Finite q) = true) by (apply valid_port_range; eauto).
    destruct PORT as [env|]; rewrite ?Hq; cbn [andb]; now rewrite Hv.
  - intros env p -> -> Hp Hr. unfold port_middleware, Number.
    assert (Hv : valid_port (Finite p) = true) by (apply valid_port_range; eauto).
    assert (Henv : String.eqb env "" = false).
    { apply String.eqb_neq. intros ->. discriminate Hp. }
    rewrite Hp, Henv, Hv, (proj2 (is_8081 _) eq_refl). cbn [andb negb]. now rewrite Hv.
  - intros Hport Henv. unfold port_middleware.
    destruct port as [[q| |negative]|]; try (destruct PORT; reflexivity).
    assert (Hsame : match PORT with
                    | Some env =>
                        if Qeq_bool q 8081 && negb (String.eqb env "") && valid_port (parseInt env)
                        then Some (parseInt env) else Some (Finite q)
                    | None => Some (Finite q)
                    end = Some (Finite q)).
    { destruct PORT as [env|]; [|reflexivity].
      rewrite (Henv env eq_refl), andb_false_r. reflexivity. }
    rewrite Hsame. destruct (valid_port (Finite q)) eqn:Hv; [|reflexivity].
    apply valid_port_range in Hv. destruct Hv as (q' & [= <-] & Hr).
    destruct (Hport q eq_refl) as [->|Hout]; [reflexivity|contradiction].
Qed.

Lemma X15_port_precedence_witness :
  port_middleware (Some (Number 9000)) (Some "3000") = Number 9000
  /\ port_middleware (Some (Number 8081)) (Some "3000") = Number 3000
  /\ port_middleware (Some (Number 70000)) (Some "http") = Number 8081.
Proof.
  split; [|split].
  - apply (proj1 (X15_port_precedence (Some (Number 9000)) (Some "3000")) (Q2Qc 9000));
      [reflexivity|discriminate|split; discriminate || reflexivity].
  - apply (proj1 (proj2 (X15_port_precedence (Some (Number 8081)) (Some "3000")))
             "3000" (Q2Qc 3000));
      [reflexivity|reflexivity|reflexivity|split; discriminate || reflexivity].
  - apply (proj2 (proj2 (X15_port_precedence (Some (Number 70000)) (Some "http")))).
    + intros q [= <-]. right. intros [_ H]. discriminate H.
    + intros env [= <-]. reflexivity.
Defined.

Lemma constructor_port_valid process port : valid_port (constructor_port process port) = true.
Proof.
  unfold constructor_port. destruct (isMCPInspector process); [reflexivity|].
  destruct port as [p|]; [|reflexivity].
  destruct (valid_port p) eqn:E; [exact E|reflexivity].
Qed.

(** X16.  The port the server listens on, from main's port through the
    constructor, is always a number from 0 up to, but not including,
    65536 (an integer or not, as main settled it): it is the port main
    settled on, unless the process runs under the MCP inspector, which
    fixes the port 3000 and the transport sse whatever was asked. *)
Theorem X16_listening_port (process : Process) (port : option number)
    (PORT : option string) (transport_arg : string) :
  let listening := constructor_port process (Some (port_middleware port PORT)) in
  (exists q, listening = Finite q /\ (0 <= q < 65536)%Q)
  /\ (isMCPInspector process = false ->
      listening = port_middleware port PORT
      /\ constructor_transport process transport_arg = transport_arg)
  /\ (isMCPInspector process = true ->
      listening = Number 3000 /\ constructor_transport process transport_arg = "sse").
Proof.
  intros listening. subst listening. split; [|split].
  - apply valid_port_range, constructor_port_valid.
  - intros Hno. unfold constructor_port, constructor_transport. rewrite Hno.
    now rewrite port_middleware_valid.
  - intros Hyes. unfold constructor_port, constructor_transport. now rewrite Hyes.
Qed.

Lemma X16_listening_port_witness :
  constructor_port {| MCP_INSPECTOR := None; NODE_ENV := Some "production"; argv := ["node"] |}
    (Some (port_middleware (Some (Number 8081)) (Some "10000")))
  = Number 10000
  /\ constructor_port {| MCP_INSPECTOR := None; NODE_ENV := None;
                         argv := ["node"; "--mcp-inspector"] |}
       (Some (port_middleware (Some (Number 8081)) (Some "10000")))
     = Number 3000.
Proof.
  split.
  - exact (proj1 (proj1 (proj2 (X16_listening_port
                                  {| MCP_INSPECTOR := None; NODE_ENV := Some "production";
                                     argv := ["node"] |}
                                  (Some (Number 8081)) (Some "10000") "stdio")) eq_refl)).
  - exact (proj1 (proj2 (proj2 (X16_listening_port
                                  {| MCP_INSPECTOR := None; NODE_ENV := None;
                                     argv := ["node"; "--mcp-inspector"] |}
                                  (Some (Number 8081)) (Some "10000") "stdio")) eq_refl)).
Defined.

(** ** Tool annotations *)

Lemma includes_In l s : includes l s = true <-> In s l.
Proof.
  unfold includes. rewrite existsb_exists. split.
  - intros (x & Hx & E). apply String.eqb_eq in E. now subst.
  - intros H. exists s. split; [exact H|apply String.eqb_refl].
Qed.

Lemma includes_not_In l s : includes l s = false <-> ~ In s l.
Proof.
  rewrite <- includes_In. destruct (includes l s); split; congruence.
Qed.

(** X17.  For every tool name, known or not: the tool is annotated
    read-only exactly when it is in none of the three lists,
    destructive exactly when it is a delete tool and not idempotent
    exactly when it is a create tool; so nothing is both read-only and
    destructive, and every destructive or read-only tool is
    idempotent. *)
Theorem X17_tool_annotations (toolName : string) :
  (readOnlyHint (getToolAnnotations toolName) = true
   <-> ~ In toolName (deleteTools ++ createTools ++ updateTools)%list)
  /\ (destructiveHint (getToolAnnotations toolName) = true <-> In toolName deleteTools)
  /\ (idempotentHint (getToolAnnotations toolName) = false <-> In toolName createTools)
  /\ (readOnlyHint (getToolAnnotations toolName) = true
      \/ destructiveHint (getToolAnnotations toolName) = true ->
      idempotentHint (getToolAnnotations toolName) = true
      /\ readOnlyHint (getToolAnnotations toolName)
         <> destructiveHint (getToolAnnotations toolName)).
Proof.
  assert (Hdc : In toolName deleteTools -> ~ In toolName createTools).
  { simpl. intros Hd Hc.
    repeat (destruct Hd as [<-|Hd]; [intuition discriminate|]). exact Hd. }
  unfold getToolAnnotations.
  destruct (includes deleteTools toolName) eqn:Hd;
    [apply includes_In in Hd|apply includes_not_In in Hd;
     destruct (includes createTools toolName) eqn:Hc;
     [apply includes_In in Hc|apply includes_not_In in Hc;
      destruct (includes updateTools toolName) eqn:Hu;
      [apply includes_In in Hu|apply includes_not_In in Hu]]];
    cbn [readOnlyHint destructiveHint idempotentHint];
    (split; [|split; [|split]]).
  (* a delete tool *)
  - split; [discriminate|]. intros Hno. exfalso. apply Hno, in_or_app. now left.
  - tauto.
  - split; [discriminate|]. intros Hc. exfalso. exact (Hdc Hd Hc).
  - intros _. split; [reflexivity|discriminate].
  (* a create tool *)
  - split; [discriminate|]. intros Hno. exfalso.
    apply Hno, in_or_app. right. apply in_or_app. now left.
  - split; [discriminate|]. intros H. contradiction.
  - tauto.
  - intros [H|H]; discriminate H.
  (* an update tool *)
  - split; [discriminate|]. intros Hno. exfalso.
    apply Hno, in_or_app. right. apply in_or_app. now right.
  - split; [discriminate|]. intros H. contradiction.
  - split; [discriminate|]. intros H. contradiction.
  - intros [H|H]; discriminate H.
  (* any other name *)
  - split; [|reflexivity]. intros _ Hin.
    apply in_app_or in Hin. destruct Hin as [H|H]; [contradiction|].
    apply in_app_or in H. destruct H; contradiction.
  - split; [discriminate|]. intros H. contradiction.
  - split; [discriminate|]. intros H. contradiction.
  - intros _. split; [reflexivity|discriminate].
Qed.

Example annotations_examples :
  getToolAnnotations "delete_document"
  = {| readOnlyHint := false; destructiveHint := true; idempotentHint := true |}
  /\ getToolAnnotations "bulk_tags"
     = {| readOnlyHint := false; destructiveHint := false; idempotentHint := true |}
  /\ getToolAnnotations "get_books"
     = {| readOnlyHint := true; destructiveHint := false; idempotentHint := true |}
  /\ getToolAnnotations "Delete_Document"
     = {| readOnlyHint := true; destructiveHint := false; idempotentHint := true |}.
Proof. repeat split. Qed.

(** ** The setup wizard *)

Lemma toLowerCase_y p : toLowerCase p = "y" -> p = "y" \/ p = "Y".
Proof.
  destruct p as [|c [|d rest]]; simpl; try discriminate.
  destruct c as [[] [] [] [] [] [] [] []]; vm_compute; intros H;
    try discriminate H; auto.
Qed.

Lemma runSetupWizard_saves check n :
  forall answers calls apiKey saved,
    (length answers <= n)%nat ->
    runSetupWizard check calls answers = Some (apiKey, saved) ->
    apiKey <> "" /\ saved = [apiKey]
    /\ exists before after k,
        answers = (before ++ apiKey :: after)%list
        /\ (check k apiKey = KeyAccepted
            \/ check k apiKey = KeyUnchecked
               /\ exists proceed rest, after = proceed :: rest
                                       /\ (proceed = "y" \/ proceed = "Y")).
Proof.
  induction n as [|n IH]; intros answers calls apiKey saved Hn Hrun.
  { destruct answers; [discriminate Hrun|simpl in Hn; lia]. }
  destruct answers as [|a rest]; [discriminate Hrun|]. simpl in Hn, Hrun.
  assert (Hlater : forall later calls',
             (length later <= n)%nat ->
             (exists skipped, a :: rest = (skipped ++ later)%list) ->
             runSetupWizard check calls' later = Some (apiKey, saved) ->
             apiKey <> "" /\ saved = [apiKey]
             /\ exists before after k,
                 a :: rest = (before ++ apiKey :: after)%list
                 /\ (check k apiKey = KeyAccepted
                     \/ check k apiKey = KeyUnchecked
                        /\ exists proceed rest0, after = proceed :: rest0
                                                 /\ (proceed = "y" \/ proceed = "Y"))).
  { intros later calls' Hlen (skipped & Hsk) Hlate.
    destruct (IH later calls' apiKey saved Hlen Hlate)
      as (Hne & Hs & before & after & k & Heq & Hc).
    split; [exact Hne|]. split; [exact Hs|].
    exists (skipped ++ before)%list, after, k. split; [|exact Hc].
    rewrite Hsk, Heq. now rewrite <- app_assoc. }
  destruct (String.eqb a "") eqn:Ha.
  { apply (Hlater rest calls); [lia|now exists [a]|exact Hrun]. }
  apply String.eqb_neq in Ha.
  destruct (check calls a) eqn:Hcheck.
  - injection Hrun as <- <-. split; [exact Ha|]. split; [reflexivity|].
    exists [], rest, calls. split; [reflexivity|now left].
  - apply (Hlater rest (S calls)); [lia|now exists [a]|exact Hrun].
  - destruct rest as [|proceed rest']; [discriminate Hrun|].
    destruct (negb (String.eqb (toLowerCase proceed) "y")) eqn:Hp.
    + apply (Hlater rest' (S calls)); [simpl in Hn; lia|now exists [a; proceed]|exact Hrun].
    + injection Hrun as <- <-. apply negb_false_iff, String.eqb_eq in Hp.
      split; [exact Ha|]. split; [reflexivity|].
      exists [], (proceed :: rest'), calls. split; [reflexivity|].
      right. split; [exact Hcheck|]. exists proceed, rest'.
      split; [reflexivity|now apply toLowerCase_y].
Qed.

(** X18.  When the setup wizard ends, the key it returns is one of the
    lines the user typed and is not empty, it is the one key handed to
    saveConfig, and at one of the checks either the API accepted it, or
    the API could not be reached and the user answered y or Y right
    after the key; a check that ends in 401 never has its key saved. *)
Theorem X18_wizard_saves_checked_key (check : nat -> string -> key_check)
    (answers : list string) (apiKey : string) (saved : list string) :
  runSetupWizard check 0 answers = Some (apiKey, saved) ->
  apiKey <> "" /\ saved = [apiKey]
  /\ exists before after k,
      answers = (before ++ apiKey :: after)%list
      /\ check k apiKey <> Key401
      /\ (check k apiKey = KeyAccepted
          \/ check k apiKey = KeyUnchecked
             /\ exists proceed rest, after = proceed :: rest
                                     /\ (proceed = "y" \/ proceed = "Y")).
Proof.
  intros Hrun.
  destruct (runSetupWizard_saves check (length answers) answers 0%nat apiKey saved
              (le_n _) Hrun)
    as (Hne & Hs & before & after & k & Heq & Hc).
  split; [exact Hne|]. split; [exact Hs|].
  exists before, after, k. split; [exact Heq|]. split; [|exact Hc].
  destruct Hc as [Hc|[Hc _]]; rewrite Hc; discriminate.
Qed.

Lemma X18_wizard_saves_checked_key_witness :
  let check (n : nat) key :=
    if String.eqb key "good" then KeyAccepted
    else if String.eqb key "offline" then KeyUnchecked else Key401 in
  runSetupWizard check 0 [""; "bad"; "offline"; "n"; "good"; "later"]
  = Some ("good", ["good"])
  /\ "good" <> "".
Proof.
  cbv zeta. split; [reflexivity|].
  exact (proj1 (X18_wizard_saves_checked_key
                  (fun (n : nat) key =>
                     if String.eqb key "good" then KeyAccepted
                     else if String.eqb key "offline" then KeyUnchecked
                     else Key401)
                  [""; "bad"; "offline"; "n"; "good"; "later"]
                  "good" ["good"] eq_refl)).
Defined.
